(** * utils_api: the WHOIS client and the TLS certificate inspector

    A shallow embedding of [pkg/utils/domain/whois.go] and
    [pkg/utils/domain/ssl.go], with the parts of the Go standard library
    they call ([strings], [regexp], [time]) modelled next to them.

    Conventions.
    - A Go [string] is a sequence of bytes: Rocq's [string].  The library
      functions that are Unicode-aware in Go ([strings.TrimSpace],
      [strings.ToLower], [strings.EqualFold], [(?i)] in a pattern) are
      modelled on their ASCII behaviour, which is Go's behaviour on ASCII
      text ([GoStrings.isASCII]).  Where a lookup normalises its input,
      [GetWhoisInfoWith] takes the normaliser as a parameter: what is
      stated for every normaliser holds with Go's on any text.
    - A Go [int] is a [Z]; no computation here leaves the 64-bit range.
    - A Go [[]string] is a [slice]: [None] is the nil slice, [Some l] a
      non-nil slice with elements [l].
    - Network and clock are effects: a function that dials or reads the
      clock is a [Prog], a tree of requests to the outside world. *)

From Stdlib Require Import ZArith String Ascii List Bool Lia.
From Stdlib Require Import SpecFloat.
From stdpp Require Import base option list gmap strings.

Local Open Scope string_scope.
Local Open Scope list_scope.
Local Open Scope Z_scope.

(** ** Go's [strings] package, on bytes *)

Module GoStrings.

Definition byte_in (lo hi : nat) (c : ascii) : bool :=
  (Nat.leb lo (nat_of_ascii c) && Nat.leb (nat_of_ascii c) hi)%bool.

(** [unicode.IsSpace] on ASCII: tab, newline, vertical tab, form feed,
    carriage return, space. *)
Definition isSpace (c : ascii) : bool :=
  (byte_in 9 13 c || Nat.eqb (nat_of_ascii c) 32)%bool.

Definition isUpper (c : ascii) : bool := byte_in 65 90 c.
Definition isLower (c : ascii) : bool := byte_in 97 122 c.

Definition toLowerByte (c : ascii) : ascii :=
  if isUpper c then ascii_of_nat (nat_of_ascii c + 32) else c.

Fixpoint ToLower (s : string) : string :=
  match s with
  | EmptyString => EmptyString
  | String c r => String (toLowerByte c) (ToLower r)
  end.

Fixpoint TrimLeft (s : string) : string :=
  match s with
  | EmptyString => EmptyString
  | String c r => if isSpace c then TrimLeft r else s
  end.

(** Drops the trailing white space: a byte is kept when it is not white
    space or when something is kept after it. *)
Fixpoint TrimRight (s : string) : string :=
  match s with
  | EmptyString => EmptyString
  | String c r =>
      match TrimRight r with
      | EmptyString => if isSpace c then EmptyString else String c EmptyString
      | r' => String c r'
      end
  end.

Definition TrimSpace (s : string) : string := TrimRight (TrimLeft s).

Fixpoint HasPrefix (s p : string) {struct p} : bool :=
  match p, s with
  | EmptyString, _ => true
  | String _ _, EmptyString => false
  | String b p', String a s' => (Ascii.eqb a b && HasPrefix s' p')%bool
  end.

(** [s[n:]] for [n <= len(s)]. *)
Fixpoint drop (n : nat) (s : string) : string :=
  match n, s with
  | O, _ => s
  | S n', String _ r => drop n' r
  | S _, EmptyString => EmptyString
  end.

Definition HasSuffix (s p : string) : bool :=
  (Nat.leb (String.length p) (String.length s)
   && String.eqb (drop (String.length s - String.length p) s) p)%bool.

(** ASCII case folding: equal lengths and bytewise equal up to case. *)
Fixpoint EqualFold (s t : string) : bool :=
  match s, t with
  | EmptyString, EmptyString => true
  | String a s', String b t' =>
      (Ascii.eqb (toLowerByte a) (toLowerByte b) && EqualFold s' t')%bool
  | _, _ => false
  end.

(** [strings.Split(s, sep)] for a one-byte separator: the pieces between
    the separators, always at least one piece. *)
Fixpoint Split (s : string) (sep : ascii) : list string :=
  match s with
  | EmptyString => [EmptyString]
  | String c r =>
      if Ascii.eqb c sep then EmptyString :: Split r sep
      else match Split r sep with
           | p :: ps => String c p :: ps
           | [] => [String c EmptyString]
           end
  end.

Fixpoint Contains (s : string) (c : ascii) : bool :=
  match s with
  | EmptyString => false
  | String a r => (Ascii.eqb a c || Contains r c)%bool
  end.

(** Text of ASCII bytes only: the text on which [TrimSpace], [ToLower]
    and [EqualFold] above are Go's functions. *)
Fixpoint isASCII (s : string) : bool :=
  match s with
  | EmptyString => true
  | String c r => (Nat.ltb (nat_of_ascii c) 128 && isASCII r)%bool
  end.

End GoStrings.

(** ** Slices of strings *)

(** [None] is Go's nil slice; [append] allocates on a nil slice. *)
Definition slice := option (list string).

Definition elems (s : slice) : list string := default [] s.

Definition append (s : slice) (x : string) : slice := Some (elems s ++ [x]).

Definition len (s : slice) : nat := length (elems s).

(** ** Go's [regexp], for the patterns of [parseWhoisResponse]

    The patterns are built from case-insensitive literals, alternation,
    greedy [*] and [+] over a character class, a greedy optional group and
    capturing groups.  Go's matcher is leftmost-first: among the matches
    that start earliest it returns the one a backtracking search finds
    first, which is what [exec] computes with its continuation [k]. *)

Module GoRegexp.

Inductive cclass : Type :=
| AnyChar      (* [.]: any byte but a newline *)
| SpaceChar.   (* [\s]: tab, newline, form feed, carriage return, space *)

Definition in_class (k : cclass) (c : ascii) : bool :=
  match k with
  | AnyChar => negb (Nat.eqb (nat_of_ascii c) 10)
  | SpaceChar =>
      let n := nat_of_ascii c in
      (Nat.eqb n 9 || Nat.eqb n 10 || Nat.eqb n 12 || Nat.eqb n 13
       || Nat.eqb n 32)%bool
  end.

Inductive regex : Type :=
| Lit (s : string)             (* literal text under [(?i)] *)
| Seq (r1 r2 : regex)
| Alt (r1 r2 : regex)
| Star (k : cclass)
| Plus (k : cclass)
| Opt (r : regex)
| Group (n : nat) (r : regex). (* the [n]-th capturing group *)

(** The input left after a case-insensitive literal, if it is there. *)
Fixpoint eat (l s : string) : option string :=
  match l, s with
  | EmptyString, _ => Some s
  | String _ _, EmptyString => None
  | String a l', String b s' =>
      if Ascii.eqb (GoStrings.toLowerByte a) (GoStrings.toLowerByte b)
      then eat l' s' else None
  end.

(** [s[:len(s)-len(s')]]: what was consumed between [s] and its suffix [s']. *)
Fixpoint take (n : nat) (s : string) : string :=
  match n, s with
  | S n', String c r => String c (take n' r)
  | _, _ => EmptyString
  end.

Definition consumed (s s' : string) : string :=
  take (String.length s - String.length s') s.

Definition captures := gmap nat string.

Section Exec.
Context {R : Type}.

(** Greedy repetition of a class: take a byte if possible and come
    back to the shorter repetition only when the rest fails. *)
Fixpoint star (c : cclass) (s : string) (k : string -> option R) : option R :=
  match s with
  | String x s' =>
      if in_class c x
      then match star c s' k with
           | Some r => Some r
           | None => k s
           end
      else k s
  | EmptyString => k s
  end.

Fixpoint exec (r : regex) (s : string) (cs : captures)
         (k : string -> captures -> option R) : option R :=
  match r with
  | Lit l =>
      match eat l s with
      | Some s' => k s' cs
      | None => None
      end
  | Seq r1 r2 => exec r1 s cs (fun s' cs' => exec r2 s' cs' k)
  | Alt r1 r2 =>
      match exec r1 s cs k with
      | Some res => Some res
      | None => exec r2 s cs k
      end
  | Star c => star c s (fun s' => k s' cs)
  | Plus c =>
      match s with
      | String x s' => if in_class c x then star c s' (fun s'' => k s'' cs) else None
      | EmptyString => None
      end
  | Opt r1 =>
      match exec r1 s cs k with
      | Some res => Some res
      | None => k s cs
      end
  | Group n r1 => exec r1 s cs (fun s' cs' => k s' (<[n := consumed s s']> cs'))
  end.
End Exec.

(** A match anchored at the start of [s]: the whole match and the groups. *)
Definition matchHere (r : regex) (s : string) : option captures :=
  exec r s ∅ (fun s' cs => Some (<[0%nat := consumed s s']> cs)).

(** The leftmost match. *)
Fixpoint search (r : regex) (s : string) : option captures :=
  match matchHere r s with
  | Some cs => Some cs
  | None =>
      match s with
      | String _ s' => search r s'
      | EmptyString => None
      end
  end.

(** The number of capturing groups: the largest group index. *)
Fixpoint NumSubexp (r : regex) : nat :=
  match r with
  | Lit _ | Star _ | Plus _ => 0%nat
  | Seq r1 r2 | Alt r1 r2 => Nat.max (NumSubexp r1) (NumSubexp r2)
  | Opt r1 => NumSubexp r1
  | Group n r1 => Nat.max n (NumSubexp r1)
  end.

(** [FindStringSubmatch]: nil ([[]]) without a match, else the match
    followed by its groups, [""] for a group that took no part. *)
Definition FindStringSubmatch (r : regex) (s : string) : list string :=
  match search r s with
  | Some cs => map (fun i => default "" (cs !! i)) (seq 0 (S (NumSubexp r)))
  | None => []
  end.

End GoRegexp.

(** ** Go's [time]: instants, layouts, [Parse] and [Format]

    A [Time] is kept as its calendar reading in its own location together
    with that location's offset east of UTC, in seconds.  [Parse] builds
    its result with [Date] from fields it has validated, so the reading is
    stored as parsed; instants are compared through [absNano]. *)

Module GoTime.

Record Time : Type := mkTime {
  Year : Z; Month : Z; Day : Z;
  Hour : Z; Minute : Z; Second : Z; Nanosecond : Z;
  Offset : Z
}.

(** [time.Time{}]: January 1, year 1, 00:00:00 UTC. *)
Definition zeroTime : Time := mkTime 1 1 1 0 0 0 0 0.

Definition isLeap (y : Z) : bool :=
  ((y mod 4 =? 0) && (negb (y mod 100 =? 0) || (y mod 400 =? 0)))%bool.

Definition daysIn (m y : Z) : Z :=
  if m =? 2 then (if isLeap y then 29 else 28)
  else if (m =? 4) || (m =? 6) || (m =? 9) || (m =? 11) then 30
  else 31.

(** Days of a non-leap year before the first of month [m]. *)
Definition daysBefore (m : Z) : Z :=
  nth (Z.to_nat (m - 1)) [0; 31; 59; 90; 120; 151; 181; 212; 243; 273; 304; 334] 0.

(** Days from January 1 of year 1 to the given date (proleptic
    Gregorian calendar), as [Date] counts them. *)
Definition daysSinceYearOne (y m d : Z) : Z :=
  let y1 := y - 1 in
  365 * y1 + y1 / 4 - y1 / 100 + y1 / 400
  + daysBefore m + (if isLeap y && (3 <=? m) then 1 else 0)%bool
  + (d - 1).

(** Seconds since January 1, year 1, 00:00:00 UTC. *)
Definition absSec (t : Time) : Z :=
  daysSinceYearOne (Year t) (Month t) (Day t) * 86400
  + Hour t * 3600 + Minute t * 60 + Second t - Offset t.

Definition absNano (t : Time) : Z := absSec t * 1000000000 + Nanosecond t.

Definition IsZero (t : Time) : bool := absNano t =? 0.
Definition After (t u : Time) : bool := absNano u <? absNano t.
Definition Before (t u : Time) : bool := absNano t <? absNano u.


(** *** Durations *)

Definition minDuration : Z := - 2 ^ 63.
Definition maxDuration : Z := 2 ^ 63 - 1.
Definition HourNs : Z := 3600 * 1000000000.

(** [t.Sub(u)]: the difference in nanoseconds, saturated to an int64. *)
Definition Sub (t u : Time) : Z :=
  let d := absNano t - absNano u in
  if d <? minDuration then minDuration
  else if maxDuration <? d then maxDuration
  else d.

(** *** float64, as IEEE 754 binary64 with round-to-nearest-even *)

Definition float64 := spec_float.
Definition f64_of_int (n : Z) : float64 := binary_normalize 53 1024 n 0 false.
Definition f64_add : float64 -> float64 -> float64 := SFadd 53 1024.
Definition f64_div : float64 -> float64 -> float64 := SFdiv 53 1024.

(** [int(f)]: the fraction is discarded.  Where the value is no int64
    (also for NaN and the infinities) Go leaves the result to the
    implementation; amd64 gives the least int64. *)
Definition int_of_f64 (f : float64) : Z :=
  match f with
  | S754_zero _ => 0
  | S754_finite s m e =>
      let a := match e with
               | Zneg p => Z.pos m / 2 ^ Z.pos p
               | _ => Z.pos m * 2 ^ e
               end in
      let v := if s then - a else a in
      if (minDuration <=? v) && (v <=? maxDuration) then v else minDuration
  | _ => minDuration
  end.

(** [d.Hours()]: whole hours plus the rest as a fraction, in float64. *)
Definition Hours (d : Z) : float64 :=
  let hour := Z.quot d HourNs in
  let nsec := Z.rem d HourNs in
  f64_add (f64_of_int hour) (f64_div (f64_of_int nsec) (f64_of_int HourNs)).

(** *** Layouts

    The elements of the reference time that occur in the layouts of
    [parseDate], with their one-digit variants.  The other elements
    (weekday names, 12-hour clock, two-digit year, year day, numeric
    zones, fractions) occur in none of them. *)

Inductive std : Type :=
| stdLongMonth        (* "January" *)
| stdMonth            (* "Jan" *)
| stdNumMonth         (* "1" *)
| stdZeroMonth        (* "01" *)
| stdDay              (* "2" *)
| stdZeroDay          (* "02" *)
| stdHour             (* "15" *)
| stdMinute           (* "4" *)
| stdZeroMinute       (* "04" *)
| stdSecond           (* "5" *)
| stdZeroSecond       (* "05" *)
| stdLongYear         (* "2006" *)
| stdISO8601ColonTZ.  (* "Z07:00" *)

Definition startsWithLowerCase (s : string) : bool :=
  match s with
  | String c _ => GoStrings.isLower c
  | EmptyString => false
  end.

(** The element that starts at the head of the layout, and its length:
    one turn of the [switch] in [nextStdChunk]. *)
Definition stdAt (l : string) : option (std * nat) :=
  if GoStrings.HasPrefix l "January" then Some (stdLongMonth, 7%nat)
  else if GoStrings.HasPrefix l "Jan" && negb (startsWithLowerCase (GoStrings.drop 3 l))
    then Some (stdMonth, 3%nat)
  else if GoStrings.HasPrefix l "01" then Some (stdZeroMonth, 2%nat)
  else if GoStrings.HasPrefix l "02" then Some (stdZeroDay, 2%nat)
  else if GoStrings.HasPrefix l "04" then Some (stdZeroMinute, 2%nat)
  else if GoStrings.HasPrefix l "05" then Some (stdZeroSecond, 2%nat)
  else if GoStrings.HasPrefix l "15" then Some (stdHour, 2%nat)
  else if GoStrings.HasPrefix l "1" then Some (stdNumMonth, 1%nat)
  else if GoStrings.HasPrefix l "2006" then Some (stdLongYear, 4%nat)
  else if GoStrings.HasPrefix l "2" then Some (stdDay, 1%nat)
  else if GoStrings.HasPrefix l "4" then Some (stdMinute, 1%nat)
  else if GoStrings.HasPrefix l "5" then Some (stdSecond, 1%nat)
  else if GoStrings.HasPrefix l "Z07:00" then Some (stdISO8601ColonTZ, 6%nat)
  else None.

(** [nextStdChunk]: the literal text before the next element, the
    element ([None] when there is none left) and the layout after it. *)
Fixpoint nextStdChunk (layout : string) : string * option std * string :=
  match stdAt layout with
  | Some (sd, n) => (EmptyString, Some sd, GoStrings.drop n layout)
  | None =>
      match layout with
      | EmptyString => (EmptyString, None, EmptyString)
      | String c r =>
          let '(p, sd, suf) := nextStdChunk r in (String c p, sd, suf)
      end
  end.

(** The layout cut into its chunks; every turn takes at least one byte
    off a layout that still has an element, so [fuel] beyond the
    layout's length is never used. *)
Fixpoint chunksFrom (fuel : nat) (layout : string) : list (string * std) * string :=
  match fuel with
  | O => ([], layout)
  | S fuel' =>
      match nextStdChunk layout with
      | (p, Some sd, suf) =>
          let '(cs, tail) := chunksFrom fuel' suf in ((p, sd) :: cs, tail)
      | (p, None, _) => ([], p)
      end
  end.

Definition chunks (layout : string) : list (string * std) * string :=
  chunksFrom (S (String.length layout)) layout.

(** *** Reading numbers and names *)

Definition isDigitByte (c : ascii) : bool := GoStrings.byte_in 48 57 c.
Definition digitVal (c : ascii) : Z := Z.of_nat (nat_of_ascii c) - 48.

(** [getnum(s, fixed)]: one or two digits, exactly two when [fixed]. *)
Definition getnum (s : string) (fixed : bool) : option (Z * string) :=
  match s with
  | String a r =>
      if isDigitByte a then
        match r with
        | String b r' =>
            if isDigitByte b then Some (digitVal a * 10 + digitVal b, r')
            else if fixed then None else Some (digitVal a, r)
        | EmptyString => if fixed then None else Some (digitVal a, r)
        end
      else None
  | EmptyString => None
  end.

(** The value of a string of digits only ([atoi] without a sign). *)
Fixpoint digitsVal (acc : Z) (s : string) : option Z :=
  match s with
  | EmptyString => Some acc
  | String c r => if isDigitByte c then digitsVal (acc * 10 + digitVal c) r else None
  end.

(** [stdLongYear]: four bytes, the first a digit, read by [atoi]. *)
Definition getLongYear (s : string) : option (Z * string) :=
  match s with
  | String a (String b (String c (String d r))) =>
      if isDigitByte a
      then match digitsVal 0 (String a (String b (String c (String d EmptyString)))) with
           | Some y => Some (y, r)
           | None => None
           end
      else None
  | _ => None
  end.

(** [match(s1, s2)] on a prefix: bytes equal, or equal letters once the
    case bit is set. *)
Definition matchByte (c1 c2 : ascii) : bool :=
  if Ascii.eqb c1 c2 then true
  else
    let l1 := Nat.lor (nat_of_ascii c1) 32 in
    let l2 := Nat.lor (nat_of_ascii c2) 32 in
    (Nat.eqb l1 l2 && Nat.leb 97 l1 && Nat.leb l1 122)%bool.

Fixpoint matchPrefix (v val : string) : option string :=
  match v, val with
  | EmptyString, _ => Some val
  | String _ _, EmptyString => None
  | String a v', String b val' => if matchByte b a then matchPrefix v' val' else None
  end.

(** [lookup(tab, val)]: the index of the first name that [val] starts
    with, and the rest of [val]. *)
Fixpoint lookup (i : Z) (tab : list string) (val : string) : option (Z * string) :=
  match tab with
  | [] => None
  | v :: tab' =>
      match matchPrefix v val with
      | Some rest => Some (i, rest)
      | None => lookup (i + 1) tab' val
      end
  end.

Definition longMonthNames : list string :=
  ["January"; "February"; "March"; "April"; "May"; "June"; "July";
   "August"; "September"; "October"; "November"; "December"].

Definition shortMonthNames : list string :=
  ["Jan"; "Feb"; "Mar"; "Apr"; "May"; "Jun"; "Jul"; "Aug"; "Sep"; "Oct";
   "Nov"; "Dec"].

Fixpoint cutspace (s : string) : string :=
  match s with
  | String c r => if Ascii.eqb c " " then cutspace r else s
  | EmptyString => s
  end.

(** [skip(value, prefix)]: the literal text of the layout must be in the
    value; a run of spaces in the layout stands for any run of spaces,
    also none at the end of the value.  [inSpaces] says that the run of
    spaces of the layout being read has already been matched. *)
Fixpoint skipFrom (inSpaces : bool) (prefix value : string) : option string :=
  match prefix with
  | EmptyString => Some value
  | String c p' =>
      if Ascii.eqb c " " then
        if inSpaces then skipFrom true p' value
        else
          match value with
          | String v _ =>
              if Ascii.eqb v " " then skipFrom true p' (cutspace value) else None
          | EmptyString => skipFrom true p' value
          end
      else
        match value with
        | String v r => if Ascii.eqb v c then skipFrom false p' r else None
        | EmptyString => None
        end
  end.

Definition skip (value prefix : string) : option string := skipFrom false prefix value.

Definition commaOrPeriod (c : ascii) : bool := (Ascii.eqb c "." || Ascii.eqb c ",")%bool.

(** The digits at the head of [s] and what follows them. *)
Fixpoint spanDigits (s : string) : string * string :=
  match s with
  | String c r =>
      if isDigitByte c then let '(d, rest) := spanDigits r in (String c d, rest)
      else (EmptyString, s)
  | EmptyString => (EmptyString, EmptyString)
  end.

(** [parseNanoseconds]: at most nine digits count, scaled to
    nanoseconds. *)
Definition fracNanos (digits : string) : Z :=
  let d := GoRegexp.take 9 digits in
  match digitsVal 0 d with
  | Some n => n * 10 ^ Z.of_nat (9 - String.length d)
  | None => 0
  end.

(** *** [Parse] *)

Record fields : Type := mkFields {
  f_year : Z; f_month : Z; f_day : Z;
  f_hour : Z; f_min : Z; f_sec : Z; f_nsec : Z;
  f_utc : bool;          (* [z = UTC]: a literal Z was read *)
  f_zoneOffset : Z       (* -1 until a numeric zone is read *)
}.

Definition fields0 : fields := mkFields 0 (-1) (-1) 0 0 0 0 false (-1).

Definition inRange (lo hi v : Z) : bool := ((lo <=? v) && (v <? hi))%bool.

(** One element of the layout read off the value: the updated fields
    and the rest of the value, or [None] for a bad or out-of-range
    value. *)
Definition parseStd (sd : std) (f : fields) (value : string) : option (fields * string) :=
  match sd with
  | stdLongYear =>
      match getLongYear value with
      | Some (y, v) => Some (mkFields y (f_month f) (f_day f) (f_hour f) (f_min f) (f_sec f) (f_nsec f) (f_utc f) (f_zoneOffset f), v)
      | None => None
      end
  | stdMonth =>
      match lookup 0 shortMonthNames value with
      | Some (i, v) => Some (mkFields (f_year f) (i + 1) (f_day f) (f_hour f) (f_min f) (f_sec f) (f_nsec f) (f_utc f) (f_zoneOffset f), v)
      | None => None
      end
  | stdLongMonth =>
      match lookup 0 longMonthNames value with
      | Some (i, v) => Some (mkFields (f_year f) (i + 1) (f_day f) (f_hour f) (f_min f) (f_sec f) (f_nsec f) (f_utc f) (f_zoneOffset f), v)
      | None => None
      end
  | stdNumMonth | stdZeroMonth =>
      match getnum value (match sd with stdZeroMonth => true | _ => false end) with
      | Some (m, v) =>
          if (m <=? 0) || (12 <? m) then None
          else Some (mkFields (f_year f) m (f_day f) (f_hour f) (f_min f) (f_sec f) (f_nsec f) (f_utc f) (f_zoneOffset f), v)
      | None => None
      end
  | stdDay | stdZeroDay =>
      match getnum value (match sd with stdZeroDay => true | _ => false end) with
      | Some (d, v) => Some (mkFields (f_year f) (f_month f) d (f_hour f) (f_min f) (f_sec f) (f_nsec f) (f_utc f) (f_zoneOffset f), v)
      | None => None
      end
  | stdHour =>
      match getnum value false with
      | Some (h, v) =>
          if inRange 0 24 h
          then Some (mkFields (f_year f) (f_month f) (f_day f) h (f_min f) (f_sec f) (f_nsec f) (f_utc f) (f_zoneOffset f), v)
          else None
      | None => None
      end
  | stdMinute | stdZeroMinute =>
      match getnum value (match sd with stdZeroMinute => true | _ => false end) with
      | Some (m, v) =>
          if inRange 0 60 m
          then Some (mkFields (f_year f) (f_month f) (f_day f) (f_hour f) m (f_sec f) (f_nsec f) (f_utc f) (f_zoneOffset f), v)
          else None
      | None => None
      end
  | stdSecond | stdZeroSecond =>
      match getnum value (match sd with stdZeroSecond => true | _ => false end) with
      | Some (s, v) =>
          if inRange 0 60 s then
            (* a fraction in the value that the layout does not announce *)
            match v with
            | String p (String d r) =>
                if commaOrPeriod p && isDigitByte d then
                  let '(ds, rest) := spanDigits (String d r) in
                  Some (mkFields (f_year f) (f_month f) (f_day f) (f_hour f) (f_min f) s (fracNanos ds) (f_utc f) (f_zoneOffset f), rest)
                else Some (mkFields (f_year f) (f_month f) (f_day f) (f_hour f) (f_min f) s (f_nsec f) (f_utc f) (f_zoneOffset f), v)
            | _ => Some (mkFields (f_year f) (f_month f) (f_day f) (f_hour f) (f_min f) s (f_nsec f) (f_utc f) (f_zoneOffset f), v)
            end
          else None
      | None => None
      end
  | stdISO8601ColonTZ =>
      match value with
      | String sign v =>
          if Ascii.eqb sign "Z" then
            Some (mkFields (f_year f) (f_month f) (f_day f) (f_hour f) (f_min f) (f_sec f) (f_nsec f) true (f_zoneOffset f), v)
          else
            match v with
            | String h1 (String h2 (String colon (String m1 (String m2 v')))) =>
                if Ascii.eqb colon ":" then
                  match getnum (String h1 (String h2 EmptyString)) true,
                        getnum (String m1 (String m2 EmptyString)) true with
                  | Some (hr, _), Some (mm, _) =>
                      if (24 <? hr) || (60 <? mm) then None
                      else
                        let off := (hr * 60 + mm) * 60 in
                        if Ascii.eqb sign "+" then
                          Some (mkFields (f_year f) (f_month f) (f_day f) (f_hour f) (f_min f) (f_sec f) (f_nsec f) (f_utc f) off, v')
                        else if Ascii.eqb sign "-" then
                          Some (mkFields (f_year f) (f_month f) (f_day f) (f_hour f) (f_min f) (f_sec f) (f_nsec f) (f_utc f) (- off), v')
                        else None
                  | _, _ => None
                  end
                else None
            | _ => None
            end
      | EmptyString => None
      end
  end.

(** The loop of [parse] over the chunks of the layout. *)
Fixpoint parseChunks (cs : list (string * std)) (f : fields) (value : string)
  : option (fields * string) :=
  match cs with
  | [] => Some (f, value)
  | (prefix, sd) :: cs' =>
      match skip value prefix with
      | Some v =>
          match parseStd sd f v with
          | Some (f', v') => parseChunks cs' f' v'
          | None => None
          end
      | None => None
      end
  end.

(** What [parse] does once the layout is used up: the day is checked
    against the month, and the time is built in UTC when a [Z] was read
    or no zone at all, else in the zone of the offset read. *)
Definition finish (f : fields) : option Time :=
  let month := if f_month f <? 0 then 1 else f_month f in
  let day := if f_day f <? 0 then 1 else f_day f in
  if (day <? 1) || (daysIn month (f_year f) <? day) then None
  else if f_utc f then
    Some (mkTime (f_year f) month day (f_hour f) (f_min f) (f_sec f) (f_nsec f) 0)
  else if negb (f_zoneOffset f =? -1) then
    Some (mkTime (f_year f) month day (f_hour f) (f_min f) (f_sec f) (f_nsec f) (f_zoneOffset f))
  else
    Some (mkTime (f_year f) month day (f_hour f) (f_min f) (f_sec f) (f_nsec f) 0).

(** [time.Parse(layout, value)]; [None] stands for any error. *)
Definition Parse (layout value : string) : option Time :=
  let '(cs, tail) := chunks layout in
  match parseChunks cs fields0 value with
  | Some (f, v) =>
      match skip v tail with
      | Some EmptyString => finish f
      | _ => None
      end
  | None => None
  end.

(** *** [Format] *)

Definition digitChar (d : Z) : ascii := ascii_of_nat (Z.to_nat (48 + d)).

(** The decimal digits of a natural number, most significant first. *)
Fixpoint decimalFrom (fuel : nat) (n : Z) (acc : string) : string :=
  match fuel with
  | O => acc
  | S fuel' =>
      let acc' := String (digitChar (n mod 10)) acc in
      if n <? 10 then acc' else decimalFrom fuel' (n / 10) acc'
  end.

Definition decimal (n : Z) : string := decimalFrom 20 n EmptyString.

Fixpoint zeros (n : nat) : string :=
  match n with
  | O => EmptyString
  | S n' => String "0" (zeros n')
  end.

(** [appendInt(b, x, width)]: decimal, zero-padded to [width], a minus
    sign first for a negative number. *)
Definition appendInt (x : Z) (width : nat) : string :=
  let d := decimal (Z.abs x) in
  (if x <? 0 then "-" else "") +:+ zeros (width - String.length d) +:+ d.

Definition formatStd (sd : std) (t : Time) : string :=
  match sd with
  | stdLongYear => appendInt (Year t) 4
  | stdMonth => nth (Z.to_nat (Month t - 1)) shortMonthNames ""
  | stdLongMonth => nth (Z.to_nat (Month t - 1)) longMonthNames ""
  | stdNumMonth => appendInt (Month t) 0
  | stdZeroMonth => appendInt (Month t) 2
  | stdDay => appendInt (Day t) 0
  | stdZeroDay => appendInt (Day t) 2
  | stdHour => appendInt (Hour t) 2
  | stdMinute => appendInt (Minute t) 0
  | stdZeroMinute => appendInt (Minute t) 2
  | stdSecond => appendInt (Second t) 0
  | stdZeroSecond => appendInt (Second t) 2
  | stdISO8601ColonTZ =>
      if Offset t =? 0 then "Z"
      else
        let zone := Z.quot (Offset t) 60 in
        let a := Z.abs zone in
        (if zone <? 0 then "-" else "+")
        +:+ appendInt (Z.quot a 60) 2 +:+ ":" +:+ appendInt (Z.rem a 60) 2
  end.

Fixpoint formatChunks (cs : list (string * std)) (t : Time) : string :=
  match cs with
  | [] => EmptyString
  | (prefix, sd) :: cs' => prefix +:+ formatStd sd t +:+ formatChunks cs' t
  end.

(** [t.Format(layout)]. *)
Definition Format (t : Time) (layout : string) : string :=
  let '(cs, tail) := chunks layout in formatChunks cs t +:+ tail.

End GoTime.

(** ** Errors, certificates and effects *)

(** Go's [error] values as this package builds them. *)
Inductive error : Type :=
| External (msg : string)                 (* an error of [net], [bufio] or [crypto/tls] *)
| Errorf (msg : string)                   (* [fmt.Errorf] of a plain message *)
| Wrapf (msg : string) (cause : error)    (* [fmt.Errorf("msg: %w", cause)] *)
| WhoisError (Domain : string) (Err : error) (Server : string)
| SSLError (Domain : string) (Err : error).

(** What one exchange with a WHOIS server comes to: lines 86 to 110 of
    [queryWhoisServer] dial, set the deadline, write the query, scan the
    answer line by line until the peer closes, and close the connection on
    every path. *)
Inductive ConnResult : Type :=
| DialFailed (e : error)
| WriteFailed (e : error)
| Scanned (lines : list string) (scanErr : option error).

Module x509.

(** The dynamic type of [cert.PublicKey], as [getKeySize] switches on it. *)
Inductive PublicKeyType : Type :=
| RSAPublicKey (bitLen : Z)        (* [*rsa.PublicKey], with [N.BitLen()] *)
| ECDSAPublicKey (bitSize : Z)     (* [*ecdsa.PublicKey], with the curve's size *)
| Ed25519PublicKeyPtr              (* [*ed25519.PublicKey] *)
| OtherPublicKey.

(** The fields of an [x509.Certificate] that the inspector reads; names
    are kept as the strings the library renders. *)
Record Certificate : Type := mkCertificate {
  IssuerString : string;
  SubjectString : string;
  SubjectCommonName : string;
  SerialNumberString : string;
  NotBefore : GoTime.Time;
  NotAfter : GoTime.Time;
  DNSNames : slice;
  SignatureAlgorithmString : string;
  PublicKeyAlgorithmString : string;
  Version : Z;
  PublicKey : PublicKeyType;
  IsCA : bool;
  KeyUsage : Z;
  CRLDistributionPoints : slice;
  OCSPServer : slice
}.

End x509.

Module tls.

(** [tls.ConnectionState], with the cipher suite already named. *)
Record ConnectionState : Type := mkConnectionState {
  PeerCertificates : list x509.Certificate;
  Version : Z;
  CipherSuiteName : string
}.

Definition VersionTLS10 : Z := 0x0301.
Definition VersionTLS11 : Z := 0x0302.
Definition VersionTLS12 : Z := 0x0303.
Definition VersionTLS13 : Z := 0x0304.

End tls.

(** A computation that talks to the network and reads the clock. *)
Inductive Prog (A : Type) : Type :=
| Ret (a : A)
| Exchange (address query : string) (k : ConnResult -> Prog A)
| DialTLS (address serverName : string) (k : error + tls.ConnectionState -> Prog A)
| Now (k : GoTime.Time -> Prog A).

Arguments Ret {A} a.
Arguments Exchange {A} address query k.
Arguments DialTLS {A} address serverName k.
Arguments Now {A} k.

Fixpoint bind {A B} (p : Prog A) (f : A -> Prog B) : Prog B :=
  match p with
  | Ret a => f a
  | Exchange ad q k => Exchange ad q (fun r => bind (k r) f)
  | DialTLS ad sn k => DialTLS ad sn (fun r => bind (k r) f)
  | Now k => Now (fun t => bind (k t) f)
  end.

#[global] Instance prog_ret : MRet Prog := fun _ a => Ret a.
#[global] Instance prog_bind : MBind Prog := fun _ _ f p => bind p f.

(** The outside world: the answer to the [i]-th exchange, to the [i]-th
    TLS handshake and the [i]-th reading of the clock. *)
Record Env : Type := mkEnv {
  exchange : nat -> string -> string -> ConnResult;
  handshake : nat -> string -> string -> error + tls.ConnectionState;
  clock : nat -> GoTime.Time
}.

(** How far a run has come, and the addresses it has dialled, in order. *)
Record RunState : Type := mkRun {
  exchanges : nat;
  handshakes : nat;
  readings : nat;
  dialled : list string
}.

Definition start : RunState := mkRun 0 0 0 [].

Fixpoint run {A} (env : Env) (p : Prog A) (st : RunState) : A * RunState :=
  match p with
  | Ret a => (a, st)
  | Exchange ad q k =>
      run env (k (exchange env (exchanges st) ad q))
          (mkRun (S (exchanges st)) (handshakes st) (readings st) (dialled st ++ [ad]))
  | DialTLS ad sn k =>
      run env (k (handshake env (handshakes st) ad sn))
          (mkRun (exchanges st) (S (handshakes st)) (readings st) (dialled st ++ [ad]))
  | Now k =>
      run env (k (clock env (readings st)))
          (mkRun (exchanges st) (handshakes st) (S (readings st)) (dialled st))
  end.

(** ** whois.go *)

Module WhoisInfo.

Record t : Type := mk {
  Domain : string;
  Registrar : string;
  CreationDate : GoTime.Time;
  ExpirationDate : GoTime.Time;
  UpdatedDate : GoTime.Time;
  NameServers : slice;
  Status : slice;
  RegistrantOrg : string;
  RegistrantEmail : string;
  AdminEmail : string;
  TechEmail : string;
  RawData : string;
  WhoisServer : string;
  QueryTime : GoTime.Time
}.

(** Assignments to one field of a [*WhoisInfo]. *)
Definition set_Registrar (v : string) (i : t) : t :=
  mk (Domain i) v (CreationDate i) (ExpirationDate i) (UpdatedDate i)
    (NameServers i) (Status i) (RegistrantOrg i) (RegistrantEmail i)
    (AdminEmail i) (TechEmail i) (RawData i) (WhoisServer i) (QueryTime i).
Definition set_CreationDate (v : GoTime.Time) (i : t) : t :=
  mk (Domain i) (Registrar i) v (ExpirationDate i) (UpdatedDate i)
    (NameServers i) (Status i) (RegistrantOrg i) (RegistrantEmail i)
    (AdminEmail i) (TechEmail i) (RawData i) (WhoisServer i) (QueryTime i).
Definition set_ExpirationDate (v : GoTime.Time) (i : t) : t :=
  mk (Domain i) (Registrar i) (CreationDate i) v (UpdatedDate i)
    (NameServers i) (Status i) (RegistrantOrg i) (RegistrantEmail i)
    (AdminEmail i) (TechEmail i) (RawData i) (WhoisServer i) (QueryTime i).
Definition set_UpdatedDate (v : GoTime.Time) (i : t) : t :=
  mk (Domain i) (Registrar i) (CreationDate i) (ExpirationDate i) v
    (NameServers i) (Status i) (RegistrantOrg i) (RegistrantEmail i)
    (AdminEmail i) (TechEmail i) (RawData i) (WhoisServer i) (QueryTime i).
Definition set_NameServers (v : slice) (i : t) : t :=
  mk (Domain i) (Registrar i) (CreationDate i) (ExpirationDate i)
    (UpdatedDate i) v (Status i) (RegistrantOrg i) (RegistrantEmail i)
    (AdminEmail i) (TechEmail i) (RawData i) (WhoisServer i) (QueryTime i).
Definition set_Status (v : slice) (i : t) : t :=
  mk (Domain i) (Registrar i) (CreationDate i) (ExpirationDate i)
    (UpdatedDate i) (NameServers i) v (RegistrantOrg i) (RegistrantEmail i)
    (AdminEmail i) (TechEmail i) (RawData i) (WhoisServer i) (QueryTime i).
Definition set_RegistrantOrg (v : string) (i : t) : t :=
  mk (Domain i) (Registrar i) (CreationDate i) (ExpirationDate i)
    (UpdatedDate i) (NameServers i) (Status i) v (RegistrantEmail i)
    (AdminEmail i) (TechEmail i) (RawData i) (WhoisServer i) (QueryTime i).
Definition set_RegistrantEmail (v : string) (i : t) : t :=
  mk (Domain i) (Registrar i) (CreationDate i) (ExpirationDate i)
    (UpdatedDate i) (NameServers i) (Status i) (RegistrantOrg i) v
    (AdminEmail i) (TechEmail i) (RawData i) (WhoisServer i) (QueryTime i).
Definition set_AdminEmail (v : string) (i : t) : t :=
  mk (Domain i) (Registrar i) (CreationDate i) (ExpirationDate i)
    (UpdatedDate i) (NameServers i) (Status i) (RegistrantOrg i)
    (RegistrantEmail i) v (TechEmail i) (RawData i) (WhoisServer i) (QueryTime i).
Definition set_TechEmail (v : string) (i : t) : t :=
  mk (Domain i) (Registrar i) (CreationDate i) (ExpirationDate i)
    (UpdatedDate i) (NameServers i) (Status i) (RegistrantOrg i)
    (RegistrantEmail i) (AdminEmail i) v (RawData i) (WhoisServer i) (QueryTime i).
Definition set_QueryTime (v : GoTime.Time) (i : t) : t :=
  mk (Domain i) (Registrar i) (CreationDate i) (ExpirationDate i)
    (UpdatedDate i) (NameServers i) (Status i) (RegistrantOrg i)
    (RegistrantEmail i) (AdminEmail i) (TechEmail i) (RawData i) (WhoisServer i) v.

End WhoisInfo.

(** [WhoisServers] defines fallback servers for different TLDs. *)
Definition WhoisServers : gmap string (list string) :=
  list_to_map
    [ ("com", ["whois.verisign-grs.com"; "whois.markmonitor.com"]);
      ("net", ["whois.verisign-grs.com"]);
      ("org", ["whois.pir.org"]);
      ("info", ["whois.afilias.net"]);
      ("biz", ["whois.neulevel.biz"]);
      ("default", ["whois.iana.org"; "whois.internic.net"]) ].

(** [WhoisServers[key]]: the nil slice, of length 0, for a missing key. *)
Definition serversOf (key : string) : list string := default [] (WhoisServers !! key).

(** The body of the loop of [removeDuplicates]: [seen] and [result]. *)
Definition dedupStep (acc : gmap string bool * list string) (item : string)
  : gmap string bool * list string :=
  if default false (fst acc !! item) then acc
  else (<[item := true]> (fst acc), snd acc ++ [item]).

(** [removeDuplicates] removes duplicate strings from a slice. *)
Definition removeDuplicates (sl : slice) : slice :=
  Some (snd (fold_left dedupStep (elems sl) (∅, []))).

(** The layouts [parseDate] tries, in its order. *)
Definition formats : list string :=
  [ "2006-01-02T15:04:05Z07:00";  (* RFC3339 *)
    "2006-01-02T15:04:05Z";       (* RFC3339 UTC *)
    "2006-01-02 15:04:05";        (* MySQL datetime *)
    "2006-01-02";                 (* Date only *)
    "02-Jan-2006";                (* Some registrars *)
    "January 02 2006";            (* Some registrars *)
    "2-Jan-2006";                 (* Some registrars *)
    "2006/01/02" ].               (* Some registrars *)

(** The loop of [parseDate]: the first layout that parses, else
    [time.Time{}]. *)
Fixpoint tryFormats (fs : list string) (dateStr : string) : GoTime.Time :=
  match fs with
  | [] => GoTime.zeroTime
  | format :: fs' =>
      match GoTime.Parse format dateStr with
      | Some date => date
      | None => tryFormats fs' dateStr
      end
  end.

(** [parseDate] attempts to parse various date formats found in WHOIS data. *)
Definition parseDate (dateStr : string) : GoTime.Time :=
  tryFormats formats (GoStrings.TrimSpace dateStr).

(** The patterns of [parseWhoisResponse]; each is compiled with [(?i)]. *)
Definition patterns : gmap string GoRegexp.regex :=
  let value n := GoRegexp.Seq (GoRegexp.Star GoRegexp.SpaceChar)
                   (GoRegexp.Group n (GoRegexp.Plus GoRegexp.AnyChar)) in
  let lit := GoRegexp.Lit in
  let seq := GoRegexp.Seq in
  let alt := GoRegexp.Alt in
  let anyStar := GoRegexp.Star GoRegexp.AnyChar in
  list_to_map
    [ (* registrar:\s*(.+) *)
      ("registrar", seq (lit "registrar:") (value 1%nat));
      (* (creation date|created|registered):\s*(.+) *)
      ("creation_date",
        seq (GoRegexp.Group 1 (alt (lit "creation date") (alt (lit "created") (lit "registered"))))
            (seq (lit ":") (value 2%nat)));
      (* (expir|expires).*:\s*(.+) *)
      ("expiration_date",
        seq (GoRegexp.Group 1 (alt (lit "expir") (lit "expires")))
            (seq anyStar (seq (lit ":") (value 2%nat))));
      (* (updated|last updated|modified).*:\s*(.+) *)
      ("updated_date",
        seq (GoRegexp.Group 1 (alt (lit "updated") (alt (lit "last updated") (lit "modified"))))
            (seq anyStar (seq (lit ":") (value 2%nat))));
      (* name server:\s*(.+) *)
      ("name_server", seq (lit "name server:") (value 1%nat));
      (* (domain )?status:\s*(.+) *)
      ("status",
        seq (GoRegexp.Opt (GoRegexp.Group 1 (lit "domain ")))
            (seq (lit "status:") (value 2%nat)));
      (* registrant.*organization:\s*(.+) *)
      ("registrant_org",
        seq (lit "registrant") (seq anyStar (seq (lit "organization:") (value 1%nat))));
      (* registrant.*email:\s*(.+) *)
      ("registrant_email",
        seq (lit "registrant") (seq anyStar (seq (lit "email:") (value 1%nat))));
      (* admin.*email:\s*(.+) *)
      ("admin_email",
        seq (lit "admin") (seq anyStar (seq (lit "email:") (value 1%nat))));
      (* tech.*email:\s*(.+) *)
      ("tech_email",
        seq (lit "tech") (seq anyStar (seq (lit "email:") (value 1%nat)))) ].

(** [patterns[key].FindStringSubmatch(line)]. *)
Definition submatch (key line : string) : list string :=
  match patterns !! key with
  | Some re => GoRegexp.FindStringSubmatch re line
  | None => []
  end.

(** [match[i]], for [i] below [len(match)]. *)
Definition at_ (m : list string) (i : nat) : string := nth i m "".

(** What [parseDate] does to a date field: it is assigned only a date
    that is not the zero time. *)
Definition assignDate (set : GoTime.Time -> WhoisInfo.t -> WhoisInfo.t)
    (text : string) (info : WhoisInfo.t) : WhoisInfo.t :=
  let date := parseDate text in
  if GoTime.IsZero date then info else set date info.

(** [if match := patterns[key].FindStringSubmatch(line); len(match) > n
    { ... match[n] ... }]: the shape of every field rule of the loop. *)
Definition onMatch (key line : string) (n : nat)
    (update : string -> WhoisInfo.t -> WhoisInfo.t) (info : WhoisInfo.t) : WhoisInfo.t :=
  let m := submatch key line in
  if (n <? length m)%nat then update (at_ m n) info else info.

(** The body of the loop of [parseWhoisResponse] over the lines. *)
Definition parseLine (info : WhoisInfo.t) (line : string) : WhoisInfo.t :=
  let line := GoStrings.TrimSpace line in
  if (String.eqb line "" || GoStrings.HasPrefix line "%" || GoStrings.HasPrefix line "#")%bool
  then info
  else
    (* Parse different fields *)
    let info := onMatch "registrar" line 1
                  (fun v => WhoisInfo.set_Registrar (GoStrings.TrimSpace v)) info in
    let info := onMatch "creation_date" line 2
                  (assignDate WhoisInfo.set_CreationDate) info in
    let info := onMatch "expiration_date" line 2
                  (assignDate WhoisInfo.set_ExpirationDate) info in
    let info := onMatch "updated_date" line 2
                  (assignDate WhoisInfo.set_UpdatedDate) info in
    let info := onMatch "name_server" line 1
                  (fun v i =>
                     let ns := GoStrings.ToLower (GoStrings.TrimSpace v) in
                     WhoisInfo.set_NameServers (append (WhoisInfo.NameServers i) ns) i) info in
    let info := onMatch "status" line 2
                  (fun v i =>
                     let status := GoStrings.TrimSpace v in
                     WhoisInfo.set_Status (append (WhoisInfo.Status i) status) i) info in
    let info := onMatch "registrant_org" line 1
                  (fun v => WhoisInfo.set_RegistrantOrg (GoStrings.TrimSpace v)) info in
    let info := onMatch "registrant_email" line 1
                  (fun v => WhoisInfo.set_RegistrantEmail (GoStrings.TrimSpace v)) info in
    let info := onMatch "admin_email" line 1
                  (fun v => WhoisInfo.set_AdminEmail (GoStrings.TrimSpace v)) info in
    let info := onMatch "tech_email" line 1
                  (fun v => WhoisInfo.set_TechEmail (GoStrings.TrimSpace v)) info in
    info.

(** The record [parseWhoisResponse] starts from: the three fields given,
    every other field at its zero value. *)
Definition newWhoisInfo (domain rawData server : string) : WhoisInfo.t :=
  WhoisInfo.mk domain "" GoTime.zeroTime GoTime.zeroTime GoTime.zeroTime
    None None "" "" "" "" rawData server GoTime.zeroTime.

(** The record of [parseWhoisResponse] when its loop over the lines is
    done, before the duplicates are removed. *)
Definition scanLines (domain rawData server : string) : WhoisInfo.t :=
  let info := newWhoisInfo domain rawData server in
  let lines := GoStrings.Split rawData "010" in
  fold_left parseLine lines info.

(** [parseWhoisResponse] extracts structured data from raw WHOIS response. *)
Definition parseWhoisResponse (domain rawData server : string) : WhoisInfo.t :=
  let info := scanLines domain rawData server in
  (* Remove duplicates from slices *)
  let info := WhoisInfo.set_NameServers (removeDuplicates (WhoisInfo.NameServers info)) info in
  let info := WhoisInfo.set_Status (removeDuplicates (WhoisInfo.Status info)) info in
  info.

(** The text the scanner loop of [queryWhoisServer] builds: every line
    read, with a newline after it. *)
Fixpoint joinLines (lines : list string) : string :=
  match lines with
  | [] => ""
  | l :: ls => l +:+ String "010" (joinLines ls)
  end.

(** [queryWhoisServer] performs the actual WHOIS query. *)
Definition queryWhoisServer (domain server : string)
  : Prog (option WhoisInfo.t * option error) :=
  Exchange (server +:+ ":43") (domain +:+ String "013" (String "010" ""))
    (fun r =>
       match r with
       | DialFailed err => Ret (None, Some (Wrapf "connection failed" err))
       | WriteFailed err => Ret (None, Some (Wrapf "write failed" err))
       | Scanned _ (Some err) => Ret (None, Some (Wrapf "read failed" err))
       | Scanned lines None =>
           let rawData := joinLines lines in
           if String.eqb rawData "" then Ret (None, Some (Errorf "empty response from server"))
           else
             (* Parse the response *)
             let whoisInfo := parseWhoisResponse domain rawData server in
             Now (fun t => Ret (Some (WhoisInfo.set_QueryTime t whoisInfo), None))
       end).

(** The loop of [GetWhoisInfo] over the candidate servers. *)
Fixpoint tryServers (domain : string) (servers : list string) (lastErr : option error)
  : Prog (option WhoisInfo.t * option error) :=
  match servers with
  | [] => Ret (None, lastErr)
  | server :: servers' =>
      r ← queryWhoisServer domain server;
      match snd r with
      | Some err => tryServers domain servers' (Some (WhoisError domain err server))
      | None => Ret (fst r, None)
      end
  end.

(** The servers [GetWhoisInfo] picks for a top-level label. *)
Definition candidateServers (tld : string) : list string :=
  let servers := serversOf tld in
  if (length servers =? 0)%nat then serversOf "default" else servers.

Section Normalised.

(** [strings.ToLower(strings.TrimSpace(domain))], the first statement of
    [GetWhoisInfo].  Go's two functions read their argument as UTF-8 and
    know Unicode's white space and letters; the lookup uses nothing of
    them but the string they return, so what holds of the lookup for
    every [normalise] holds of it with Go's. *)
Variable normalise : string -> string.

(** [GetWhoisInfo] performs WHOIS lookup with fallback servers. *)
Definition GetWhoisInfoWith (domain : string) : Prog (option WhoisInfo.t * option error) :=
  let domain := normalise domain in
  if String.eqb domain "" then Ret (None, Some (Errorf "domain cannot be empty"))
  else
    (* Extract TLD for server selection *)
    let parts := GoStrings.Split domain "." in
    if (length parts <? 2)%nat
    then Ret (None, Some (Errorf ("invalid domain format: " +:+ domain)))
    else
      let tld := List.last parts "" in
      (* Get servers for this TLD *)
      tryServers domain (candidateServers tld) None.

End Normalised.

(** [GetWhoisInfo] on ASCII text, where [GoStrings.TrimSpace] and
    [GoStrings.ToLower] are Go's functions. *)
Definition GetWhoisInfo (domain : string) : Prog (option WhoisInfo.t * option error) :=
  GetWhoisInfoWith (fun s => GoStrings.ToLower (GoStrings.TrimSpace s)) domain.

(** ** ssl.go *)

Module CertificateInfo.

Record t : Type := mk {
  Subject : string;
  Issuer : string;
  NotBefore : GoTime.Time;
  NotAfter : GoTime.Time;
  IsCA : bool;
  KeyUsage : slice
}.

End CertificateInfo.

Module SSLInfo.

Record t : Type := mk {
  Domain : string;
  IsValid : bool;
  Issuer : string;
  Subject : string;
  SerialNumber : string;
  NotBefore : GoTime.Time;
  NotAfter : GoTime.Time;
  DaysUntilExpiry : Z;
  SubjectAltNames : slice;
  SignatureAlgorithm : string;
  PublicKeyAlgorithm : string;
  KeySize : Z;
  Version : Z;
  IsSelfSigned : bool;
  IsWildcard : bool;
  CertificateChain : list CertificateInfo.t;
  TLSVersion : string;
  CipherSuite : string;
  ValidationErrors : slice;
  QueryTime : GoTime.Time
}.

End SSLInfo.

(** [matchesDomain] checks if certificate matches the domain. *)
Definition matchesDomain (cert : x509.Certificate) (domain : string) : bool :=
  (* Check subject common name *)
  if GoStrings.EqualFold (x509.SubjectCommonName cert) domain then true
  else
    (* Check subject alternative names *)
    existsb
      (fun name =>
         if GoStrings.EqualFold name domain then true
         else if GoStrings.HasPrefix name "*." then
           (* Check wildcard match *)
           let wildcard := GoStrings.drop 2 name in
           (GoStrings.HasSuffix domain ("." +:+ wildcard)
            || GoStrings.EqualFold domain wildcard)%bool
         else false)
      (elems (x509.DNSNames cert)).

(** [validateCertificate] performs basic certificate validation. *)
Definition validateCertificate (cert : x509.Certificate) (domain : string) : Prog slice :=
  let errors : slice := None in
  (* Check expiry *)
  Now (fun now1 =>
  let errors :=
    if GoTime.After now1 (x509.NotAfter cert)
    then append errors "certificate has expired" else errors in
  (* Check not yet valid *)
  Now (fun now2 =>
  let errors :=
    if GoTime.Before now2 (x509.NotBefore cert)
    then append errors "certificate is not yet valid" else errors in
  (* Check domain match *)
  let errors :=
    if negb (matchesDomain cert domain)
    then append errors "certificate does not match domain" else errors in
  (* Check if certificate is revoked (basic check) *)
  let errors :=
    if ((len (x509.CRLDistributionPoints cert) =? 0)%nat
        && (len (x509.OCSPServer cert) =? 0)%nat)%bool
    then append errors "no revocation checking mechanism available" else errors in
  Ret errors)).

(** [getKeySize] determines the key size based on public key type. *)
Definition getKeySize (cert : x509.Certificate) : Z :=
  match x509.PublicKey cert with
  | x509.RSAPublicKey bitLen => bitLen
  | x509.ECDSAPublicKey bitSize => bitSize
  | x509.Ed25519PublicKeyPtr => 256
  | x509.OtherPublicKey => 0
  end.

(** [getTLSVersion] converts TLS version constant to string. *)
Definition getTLSVersion (version : Z) : string :=
  if version =? tls.VersionTLS10 then "TLS 1.0"
  else if version =? tls.VersionTLS11 then "TLS 1.1"
  else if version =? tls.VersionTLS12 then "TLS 1.2"
  else if version =? tls.VersionTLS13 then "TLS 1.3"
  else "Unknown (" +:+ GoTime.decimal version +:+ ")".

(** [getKeyUsage] extracts key usage information. *)
Definition getKeyUsage (cert : x509.Certificate) : slice :=
  let bit (n : Z) (label : string) (usage : slice) : slice :=
    if negb (Z.land (x509.KeyUsage cert) (Z.shiftl 1 n) =? 0)
    then append usage label else usage in
  bit 6 "CRL Signing"
    (bit 5 "Certificate Signing"
       (bit 4 "Key Agreement"
          (bit 3 "Data Encipherment"
             (bit 2 "Key Encipherment"
                (bit 1 "Content Commitment"
                   (bit 0 "Digital Signature" None)))))).

(** [int(time.Until(notAfter).Hours() / 24)], for the clock reading [now]. *)
Definition daysUntil (notAfter now : GoTime.Time) : Z :=
  GoTime.int_of_f64
    (GoTime.f64_div (GoTime.Hours (GoTime.Sub notAfter now)) (GoTime.f64_of_int 24)).

Definition chainEntry (peerCert : x509.Certificate) : CertificateInfo.t :=
  CertificateInfo.mk (x509.SubjectString peerCert) (x509.IssuerString peerCert)
    (x509.NotBefore peerCert) (x509.NotAfter peerCert) (x509.IsCA peerCert)
    (getKeyUsage peerCert).

(** The port of [GetSSLInfo]: the first of the optional ports when it is
    positive, else the HTTPS port. *)
Definition targetPort (port : list Z) : Z :=
  match port with
  | p :: _ => if 0 <? p then p else 443
  | [] => 443
  end.

(** [fmt.Sprintf("%s:%d", domain, targetPort)]. *)
Definition tlsAddress (domain : string) (port : list Z) : string :=
  domain +:+ ":" +:+ GoTime.appendInt (targetPort port) 0.

(** [GetSSLInfo] retrieves SSL certificate information for a domain.
    As for [GetWhoisInfoWith], [normalise] stands for
    [strings.ToLower(strings.TrimSpace(domain))]. *)
Definition GetSSLInfoWith (normalise : string -> string) (domain : string) (port : list Z)
  : Prog (option SSLInfo.t * option error) :=
  let domain := normalise domain in
  if String.eqb domain "" then Ret (None, Some (Errorf "domain cannot be empty"))
  else
    let address := tlsAddress domain port in
    DialTLS address domain (fun r =>
    match r with
    | inl err => Ret (None, Some (SSLError domain err))
    | inr state =>
        match tls.PeerCertificates state with
        | [] => Ret (None, Some (SSLError domain (Errorf "no certificates found")))
        | cert :: _ =>
            Now (fun queryTime =>
            (* Calculate days until expiry *)
            Now (fun now1 =>
            let daysUntilExpiry := daysUntil (x509.NotAfter cert) now1 in
            (* Check if certificate is valid: [&&] reads the clock only
               when the days are positive *)
            isValid ← (if 0 <? daysUntilExpiry
                       then Now (fun now2 => Ret (GoTime.After now2 (x509.NotBefore cert)))
                       else Ret false);
            (* Validate certificate chain *)
            validationErrors ← validateCertificate cert domain;
            Ret (Some (SSLInfo.mk
                         domain
                         isValid
                         (x509.IssuerString cert)
                         (x509.SubjectString cert)
                         (x509.SerialNumberString cert)
                         (x509.NotBefore cert)
                         (x509.NotAfter cert)
                         daysUntilExpiry
                         (x509.DNSNames cert)
                         (x509.SignatureAlgorithmString cert)
                         (x509.PublicKeyAlgorithmString cert)
                         (getKeySize cert)
                         (x509.Version cert)
                         (String.eqb (x509.IssuerString cert) (x509.SubjectString cert))
                         (existsb (fun name => GoStrings.HasPrefix name "*.") (elems (x509.DNSNames cert)))
                         (map chainEntry (tls.PeerCertificates state))
                         (getTLSVersion (tls.Version state))
                         (tls.CipherSuiteName state)
                         validationErrors
                         queryTime),
                 None)))
        end
    end).

(** [GetSSLInfo] on ASCII text, where [GoStrings.TrimSpace] and
    [GoStrings.ToLower] are Go's functions. *)
Definition GetSSLInfo (domain : string) (port : list Z)
  : Prog (option SSLInfo.t * option error) :=
  GetSSLInfoWith (fun s => GoStrings.ToLower (GoStrings.TrimSpace s)) domain port.

(** * Properties *)

(** ** Record updates *)

Ltac whois_proj :=
  cbn [WhoisInfo.Domain WhoisInfo.Registrar WhoisInfo.CreationDate
       WhoisInfo.ExpirationDate WhoisInfo.UpdatedDate WhoisInfo.NameServers
       WhoisInfo.Status WhoisInfo.RegistrantOrg WhoisInfo.RegistrantEmail
       WhoisInfo.AdminEmail WhoisInfo.TechEmail WhoisInfo.RawData
       WhoisInfo.WhoisServer WhoisInfo.QueryTime
       WhoisInfo.set_Registrar WhoisInfo.set_CreationDate
       WhoisInfo.set_ExpirationDate WhoisInfo.set_UpdatedDate
       WhoisInfo.set_NameServers WhoisInfo.set_Status
       WhoisInfo.set_RegistrantOrg WhoisInfo.set_RegistrantEmail
       WhoisInfo.set_AdminEmail WhoisInfo.set_TechEmail
       WhoisInfo.set_QueryTime].

(** A field that the update of a rule leaves alone is left alone by the
    rule. *)
Lemma proj_assignDate {A} (p : WhoisInfo.t -> A) set text i :
  (forall v j, p (set v j) = p j) -> p (assignDate set text i) = p i.
Proof. intros H. unfold assignDate. destruct (GoTime.IsZero _); auto. Qed.

Lemma proj_onMatch {A} (p : WhoisInfo.t -> A) key line n update i :
  (forall v j, p (update v j) = p j) -> p (onMatch key line n update i) = p i.
Proof. intros H. unfold onMatch. cbv zeta. destruct (_ <? _)%nat; auto. Qed.

(** ** [removeDuplicates] *)

Section RemoveDuplicates.

(** The list [removeDuplicates] builds from the elements [l]. *)
Definition dedup (l : list string) : list string :=
  snd (fold_left dedupStep l (∅, [])).

(** [seen] holds exactly the items of [result]. *)
Definition agrees (acc : gmap string bool * list string) : Prop :=
  forall x, default false (fst acc !! x) = true <-> x ∈ snd acc.

Lemma dedupStep_spec acc x :
  agrees acc -> NoDup (snd acc) ->
  agrees (dedupStep acc x) /\ NoDup (snd (dedupStep acc x))
  /\ snd (dedupStep acc x) = if decide (x ∈ snd acc) then snd acc else snd acc ++ [x].
Proof.
  intros Hag Hnd. unfold dedupStep. unfold agrees in *.
  destruct (default false (fst acc !! x)) eqn:E.
  - apply Hag in E. rewrite decide_True by done. done.
  - assert (x ∉ snd acc) as Hx by (intros Hin; apply Hag in Hin; congruence).
    rewrite decide_False by done. cbn [fst snd]. split_and!; [|  | done].
    + intros y. cbn [fst snd]. destruct (decide (x = y)) as [->|Hne].
      * rewrite lookup_insert_eq. cbn. rewrite elem_of_app, list_elem_of_singleton. tauto.
      * rewrite lookup_insert_ne by done. rewrite Hag, elem_of_app, list_elem_of_singleton.
        split; [tauto | intros [?|?]; [done | congruence]].
    + apply NoDup_app. split_and!; [done | | apply NoDup_singleton].
      intros y Hy ->%list_elem_of_singleton. done.
Qed.

Lemma dedup_inv l :
  agrees (fold_left dedupStep l (∅, [])) /\ NoDup (dedup l).
Proof.
  unfold dedup. induction l as [|x l IH] using rev_ind.
  - cbn. split; [| apply NoDup_nil_2].
    intros x. cbn. rewrite lookup_empty. cbn. rewrite elem_of_nil. split; [done | tauto].
  - rewrite fold_left_app. cbn [fold_left]. destruct IH as [Hag Hnd].
    destruct (dedupStep_spec _ x Hag Hnd) as (? & ? & _). done.
Qed.

Lemma dedup_nil : dedup [] = [].
Proof. reflexivity. Qed.

(** A later occurrence is dropped, a new item goes to the end. *)
Lemma dedup_snoc l x :
  dedup (l ++ [x]) = if decide (x ∈ dedup l) then dedup l else dedup l ++ [x].
Proof.
  unfold dedup. rewrite fold_left_app. cbn [fold_left].
  destruct (dedup_inv l) as [Hag Hnd].
  destruct (dedupStep_spec _ x Hag Hnd) as (_ & _ & ->). done.
Qed.

Lemma dedup_elem_of l x : x ∈ dedup l <-> x ∈ l.
Proof.
  induction l as [|y l IH] using rev_ind.
  - done.
  - rewrite dedup_snoc, !elem_of_app, list_elem_of_singleton.
    destruct (decide (y ∈ dedup l)) as [Hy|Hy].
    + rewrite IH. split; [tauto |]. intros [?| ->]; [done | by apply IH].
    + rewrite elem_of_app, list_elem_of_singleton, IH. done.
Qed.

Lemma dedup_NoDup l : NoDup (dedup l).
Proof. apply dedup_inv. Qed.

Lemma dedup_sublist l : sublist (dedup l) l.
Proof.
  induction l as [|y l IH] using rev_ind.
  - done.
  - rewrite dedup_snoc. destruct (decide _).
    + by apply sublist_inserts_r.
    + by apply sublist_app.
Qed.

Lemma removeDuplicates_elems sl : removeDuplicates sl = Some (dedup (elems sl)).
Proof. reflexivity. Qed.

End RemoveDuplicates.

(** ** What a line does to the fields *)

(** Rewrites a projection across the rules of the other fields. *)
Ltac skip_rules p :=
  repeat match goal with
    | |- context [p (onMatch ?key ?line ?n ?update ?i)] =>
        rewrite (proj_onMatch p key line n update i)
          by (intros; first [reflexivity | apply proj_assignDate; intros; reflexivity])
    end.

Lemma onMatch_cases key line n update i :
  onMatch key line n update i = i
  \/ exists v, onMatch key line n update i = update v i.
Proof. unfold onMatch. cbv zeta. destruct (_ <? _)%nat; eauto. Qed.

Lemma parseLine_NameServers info line :
  WhoisInfo.NameServers (parseLine info line) = WhoisInfo.NameServers info
  \/ exists text,
      WhoisInfo.NameServers (parseLine info line)
      = append (WhoisInfo.NameServers info) (GoStrings.ToLower (GoStrings.TrimSpace text)).
Proof.
  unfold parseLine. destruct (_ || _ || _)%bool; [by left |].
  cbv zeta. skip_rules WhoisInfo.NameServers.
  match goal with
  | |- context [onMatch ?k ?l ?n ?u ?i] =>
      destruct (onMatch_cases k l n u i) as [-> | [v ->]]
  end.
  - left. skip_rules WhoisInfo.NameServers. done.
  - right. whois_proj. skip_rules WhoisInfo.NameServers. eauto.
Qed.

Lemma parseLine_Status info line :
  WhoisInfo.Status (parseLine info line) = WhoisInfo.Status info
  \/ exists text,
      WhoisInfo.Status (parseLine info line)
      = append (WhoisInfo.Status info) (GoStrings.TrimSpace text).
Proof.
  unfold parseLine. destruct (_ || _ || _)%bool; [by left |].
  cbv zeta. skip_rules WhoisInfo.Status.
  match goal with
  | |- context [onMatch ?k ?l ?n ?u ?i] =>
      destruct (onMatch_cases k l n u i) as [-> | [v ->]]
  end.
  - left. skip_rules WhoisInfo.Status. done.
  - right. whois_proj. skip_rules WhoisInfo.Status. eauto.
Qed.

Lemma toLowerByte_idem c :
  GoStrings.toLowerByte (GoStrings.toLowerByte c) = GoStrings.toLowerByte c.
Proof. destruct c as [[] [] [] [] [] [] [] []]; reflexivity. Qed.

Lemma ToLower_idem s : GoStrings.ToLower (GoStrings.ToLower s) = GoStrings.ToLower s.
Proof.
  induction s as [|c s IH]; [done |].
  cbn [GoStrings.ToLower]. by rewrite toLowerByte_idem, IH.
Qed.

Definition lowered (sl : slice) : Prop :=
  Forall (fun ns => GoStrings.ToLower ns = ns) (elems sl).

Lemma parseLine_lowered info line :
  lowered (WhoisInfo.NameServers info) ->
  lowered (WhoisInfo.NameServers (parseLine info line)).
Proof.
  intros H. destruct (parseLine_NameServers info line) as [-> | [text ->]]; [done |].
  unfold lowered, append. cbn [elems default]. apply Forall_app. split; [done |].
  apply Forall_singleton, ToLower_idem.
Qed.

Lemma scanLines_lowered domain rawData server :
  lowered (WhoisInfo.NameServers (scanLines domain rawData server)).
Proof.
  unfold scanLines. cbv zeta.
  assert (lowered (WhoisInfo.NameServers (newWhoisInfo domain rawData server))) as H
    by (apply Forall_nil_2).
  revert H. generalize (newWhoisInfo domain rawData server).
  induction (GoStrings.Split rawData _) as [|l ls IH]; intros info H; [done |].
  cbn [fold_left]. apply IH, parseLine_lowered, H.
Qed.

(** The two lists of the parsed record. *)
Lemma parseWhoisResponse_NameServers domain rawData server :
  WhoisInfo.NameServers (parseWhoisResponse domain rawData server)
  = Some (dedup (elems (WhoisInfo.NameServers (scanLines domain rawData server)))).
Proof. reflexivity. Qed.

Lemma parseWhoisResponse_Status domain rawData server :
  WhoisInfo.Status (parseWhoisResponse domain rawData server)
  = Some (dedup (elems (WhoisInfo.Status (scanLines domain rawData server)))).
Proof. reflexivity. Qed.

(** ** The two lists of the parsed record *)

(** C7: the [NameServers] and [Status] lists of the record returned by
    [parseWhoisResponse] have no duplicates.  Each is what the loop over the
    lines collected (name servers lowercased on append) with the duplicates
    removed, where removing duplicates keeps the order and the first
    occurrence: it gives a sublist with the same elements, and run over
    [l ++ [x]] it drops [x] when [x] is in [l] already and else puts it at
    the end.  Two lines [Name Server: ns1.example.com] give the one entry
    [ns1.example.com], also when the second is in upper case. *)
Theorem C7_lists_without_duplicates :
  (forall domain rawData server,
      let info := parseWhoisResponse domain rawData server in
      let collected := scanLines domain rawData server in
      NoDup (elems (WhoisInfo.NameServers info))
      /\ NoDup (elems (WhoisInfo.Status info))
      /\ elems (WhoisInfo.NameServers info) = dedup (elems (WhoisInfo.NameServers collected))
      /\ elems (WhoisInfo.Status info) = dedup (elems (WhoisInfo.Status collected))
      /\ Forall (fun ns => GoStrings.ToLower ns = ns) (elems (WhoisInfo.NameServers info)))
  /\ (forall sl, removeDuplicates sl = Some (dedup (elems sl)))
  /\ dedup [] = []
  /\ (forall l x, dedup (l ++ [x]) = if decide (x ∈ dedup l) then dedup l else dedup l ++ [x])
  /\ (forall l, sublist (dedup l) l /\ forall x, x ∈ dedup l <-> x ∈ l)
  /\ WhoisInfo.NameServers
       (parseWhoisResponse "example.com"
          ("Name Server: ns1.example.com" +:+ String "010"
             ("Name Server: ns1.example.com" +:+ String "010" ""))
          "whois.verisign-grs.com")
     = Some ["ns1.example.com"]
  /\ WhoisInfo.NameServers
       (parseWhoisResponse "example.com"
          ("Name Server: ns1.example.com" +:+ String "010"
             ("Name Server: NS1.EXAMPLE.COM" +:+ String "010" ""))
          "whois.verisign-grs.com")
     = Some ["ns1.example.com"].
Proof.
  split_and!.
  - intros domain rawData server info collected. subst info collected.
    rewrite parseWhoisResponse_NameServers, parseWhoisResponse_Status.
    cbn [elems default]. split_and!; try done; try apply dedup_NoDup.
    apply Forall_forall. intros ns Hns.
    apply (proj1 (dedup_elem_of _ _)) in Hns.
    pose proof (scanLines_lowered domain rawData server) as Hl.
    unfold lowered in Hl. rewrite Forall_forall in Hl. by apply Hl.
  - apply removeDuplicates_elems.
  - apply dedup_nil.
  - apply dedup_snoc.
  - intros l. split; [apply dedup_sublist | intros x; apply dedup_elem_of].
  - vm_compute. reflexivity.
  - vm_compute. reflexivity.
Qed.

(** C10: whatever the domain, the raw text and the server, the
    [NameServers] and [Status] fields of the record returned by
    [parseWhoisResponse] are non-nil slices: each is the slice that
    [removeDuplicates] allocates, so it is the empty slice, not nil, when
    the loop collected nothing, as for an empty text or a text in which no
    line matches. *)
Theorem C10_lists_never_nil :
  (forall domain rawData server,
      let info := parseWhoisResponse domain rawData server in
      WhoisInfo.NameServers info <> None /\ WhoisInfo.Status info <> None
      /\ WhoisInfo.NameServers info
         = Some (dedup (elems (WhoisInfo.NameServers (scanLines domain rawData server))))
      /\ WhoisInfo.Status info
         = Some (dedup (elems (WhoisInfo.Status (scanLines domain rawData server)))))
  /\ (forall sl, removeDuplicates sl <> None)
  /\ removeDuplicates None = Some []
  /\ (forall domain server,
        let info := parseWhoisResponse domain "" server in
        WhoisInfo.NameServers info = Some [] /\ WhoisInfo.Status info = Some [])
  /\ (forall domain server,
        let info := parseWhoisResponse domain "No match for domain" server in
        WhoisInfo.NameServers info = Some [] /\ WhoisInfo.Status info = Some []).
Proof.
  split_and!.
  - intros domain rawData server info. subst info.
    rewrite parseWhoisResponse_NameServers, parseWhoisResponse_Status. done.
  - done.
  - reflexivity.
  - intros domain server info. split; reflexivity.
  - intros domain server info. split; vm_compute; reflexivity.
Qed.

(** ** [strings.Split] and the last label *)

Lemma Split_nonempty s c : GoStrings.Split s c <> [].
Proof.
  destruct s as [|a s]; cbn [GoStrings.Split]; [done |].
  destruct (Ascii.eqb a c); [done |]. by destruct (GoStrings.Split s c).
Qed.

Lemma Split_no_sep s c : GoStrings.Contains s c = false -> GoStrings.Split s c = [s].
Proof.
  induction s as [|a s IH]; cbn [GoStrings.Split GoStrings.Contains]; [done |].
  intros [Ha Hs]%orb_false_elim. rewrite Ha, (IH Hs). done.
Qed.

Lemma Split_with_sep s c :
  GoStrings.Contains s c = true -> (2 <= length (GoStrings.Split s c))%nat.
Proof.
  induction s as [|a s IH]; cbn [GoStrings.Split GoStrings.Contains]; [done |].
  destruct (Ascii.eqb a c) eqn:Ha.
  - intros _. cbn [length]. pose proof (Split_nonempty s c).
    destruct (GoStrings.Split s c); [done | cbn [length]; lia].
  - cbn [orb]. intros Hs. specialize (IH Hs).
    destruct (GoStrings.Split s c) as [|p ps]; cbn [length] in *; lia.
Qed.

(** The last piece is the text after the last separator. *)
Lemma Split_last s c :
  GoStrings.Contains (List.last (GoStrings.Split s c) "") c = false
  /\ (GoStrings.Contains s c = true ->
      exists pre, s = pre +:+ String c (List.last (GoStrings.Split s c) "")).
Proof.
  induction s as [|a s [IH1 IH2]]; cbn [GoStrings.Split GoStrings.Contains]; [done |].
  pose proof (Split_nonempty s c) as Hne.
  destruct (Ascii.eqb a c) eqn:Ha.
  - apply Ascii.eqb_eq in Ha as ->.
    destruct (GoStrings.Split s c) as [|p ps] eqn:E; [done |].
    change (List.last ("" :: p :: ps) "") with (List.last (p :: ps) "").
    split; [done |]. intros _.
    destruct (GoStrings.Contains s c) eqn:Hs.
    + destruct (IH2 eq_refl) as [pre ->]. by exists (String c pre).
    + rewrite (Split_no_sep _ _ Hs) in E. injection E as <- <-. by exists "".
  - cbn [orb]. destruct (GoStrings.Split s c) as [|p ps] eqn:E; [done |].
    destruct ps as [|p' ps'].
    + cbn [List.last] in *. split.
      * cbn [GoStrings.Contains]. by rewrite Ha, IH1.
      * intros Hs. destruct (IH2 Hs) as [pre Hpre].
        assert (GoStrings.Contains s c = false) as Hn.
        { destruct (GoStrings.Contains s c) eqn:Hc; [| done].
          pose proof (Split_with_sep s c Hc) as Hlen. rewrite E in Hlen. cbn in Hlen. lia. }
        congruence.
    + change (List.last (String a p :: p' :: ps') "") with (List.last (p :: p' :: ps') "").
      split; [done |]. intros Hs. destruct (IH2 Hs) as [pre ->]. by exists (String a pre).
Qed.

(** ** The candidate servers *)

Definition defaultServers : list string := ["whois.iana.org"; "whois.internic.net"].

Lemma WhoisServers_registered tld registered :
  WhoisServers !! tld = Some registered -> registered <> [].
Proof.
  unfold WhoisServers. intros H%elem_of_list_to_map_2.
  repeat (apply elem_of_cons in H as [H | H]; [by injection H as -> -> |]).
  by apply elem_of_nil in H.
Qed.

Lemma candidateServers_spec tld :
  candidateServers tld
  = match WhoisServers !! tld with
    | Some registered => registered
    | None => defaultServers
    end.
Proof.
  unfold candidateServers. cbv zeta. unfold serversOf at 1 3.
  destruct (WhoisServers !! tld) as [registered|] eqn:E; cbn [default].
  - apply WhoisServers_registered in E. destruct registered; [done | reflexivity].
  - reflexivity.
Qed.

Lemma candidateServers_nonempty tld : candidateServers tld <> [].
Proof.
  rewrite candidateServers_spec. destruct (WhoisServers !! tld) as [registered|] eqn:E.
  - by apply (WhoisServers_registered tld).
  - done.
Qed.

(** For a domain with a dot, [GetWhoisInfo] is its loop over the
    candidates of the last label. *)
Lemma GetWhoisInfoWith_valid normalise domain :
  let d := normalise domain in
  d <> "" ->
  GoStrings.Contains d "." = true ->
  GetWhoisInfoWith normalise domain
  = tryServers d (candidateServers (List.last (GoStrings.Split d ".") "")) None.
Proof.
  intros d Hne Hdot. unfold GetWhoisInfoWith. fold d.
  destruct (String.eqb d "") eqn:E; [by apply String.eqb_eq in E |].
  pose proof (Split_with_sep d "." Hdot) as Hlen.
  destruct (length (GoStrings.Split d ".") <? 2)%nat eqn:E2; [| done].
  apply Nat.ltb_lt in E2. lia.
Qed.

Lemma GetWhoisInfo_valid domain :
  let d := GoStrings.ToLower (GoStrings.TrimSpace domain) in
  d <> "" ->
  GoStrings.Contains d "." = true ->
  GetWhoisInfo domain
  = tryServers d (candidateServers (List.last (GoStrings.Split d ".") "")) None.
Proof.
  apply (GetWhoisInfoWith_valid (fun s => GoStrings.ToLower (GoStrings.TrimSpace s))).
Qed.

(** C8: [GetWhoisInfo] works on the domain as [strings.TrimSpace] and
    [strings.ToLower] return it, whatever they make of the input.  When
    that domain has a dot, its top-level label is the text after the last
    dot, and the candidate list the lookup iterates over is exactly the list
    registered for that label in [WhoisServers] when there is one, and
    exactly the default list, the one registered under ["default"], when
    there is none. *)
Theorem C8_candidate_list (normalise : string -> string) (domain : string) :
  let d := normalise domain in
  d <> "" ->
  GoStrings.Contains d "." = true ->
  exists pre tld,
    d = pre +:+ String "." tld
    /\ GoStrings.Contains tld "." = false
    /\ GetWhoisInfoWith normalise domain = tryServers d (candidateServers tld) None
    /\ candidateServers tld
       = match WhoisServers !! tld with
         | Some registered => registered
         | None => defaultServers
         end
    /\ WhoisServers !! "default" = Some defaultServers.
Proof.
  intros d Hne Hdot.
  destruct (Split_last d ".") as [Hlast Hpre]. destruct (Hpre Hdot) as [pre Hd].
  exists pre, (List.last (GoStrings.Split d ".") "").
  split_and!; [done | done | | apply candidateServers_spec | by vm_compute].
  by apply GetWhoisInfoWith_valid.
Qed.

Lemma C8_candidate_list_witness :
  (exists pre tld,
      "example.com" = pre +:+ String "." tld
      /\ GoStrings.Contains tld "." = false
      /\ GetWhoisInfo " Example.COM " = tryServers "example.com" (candidateServers tld) None
      /\ candidateServers tld
         = match WhoisServers !! tld with
           | Some registered => registered
           | None => defaultServers
           end
      /\ WhoisServers !! "default" = Some defaultServers)
  /\ candidateServers "com" = ["whois.verisign-grs.com"; "whois.markmonitor.com"]
  /\ candidateServers "dev" = defaultServers.
Proof.
  split_and!.
  - apply (C8_candidate_list (fun s => GoStrings.ToLower (GoStrings.TrimSpace s))
             " Example.COM "); [discriminate | reflexivity].
  - vm_compute. reflexivity.
  - vm_compute. reflexivity.
Defined.

(** C9: when the domain, as [strings.TrimSpace] and [strings.ToLower]
    return it, is empty or has no dot, [GetWhoisInfo] is the plain return
    of an error: "domain cannot be empty" for the empty domain, "invalid
    domain format" with the domain otherwise.  It makes no request to the
    outside world: whatever the environment, a run of it dials no address
    and leaves the run state as it was. *)
Theorem C9_invalid_input_fails_before_io (normalise : string -> string) (domain : string) :
  let d := normalise domain in
  d = "" \/ GoStrings.Contains d "." = false ->
  exists msg,
    GetWhoisInfoWith normalise domain = Ret (None, Some (Errorf msg))
    /\ (d = "" -> msg = "domain cannot be empty")
    /\ (d <> "" -> msg = "invalid domain format: " +:+ d)
    /\ forall env st,
        run env (GetWhoisInfoWith normalise domain) st = ((None, Some (Errorf msg)), st).
Proof.
  intros d H. unfold GetWhoisInfoWith. fold d.
  destruct (String.eqb d "") eqn:E.
  - apply String.eqb_eq in E. exists "domain cannot be empty". by split_and!.
  - apply String.eqb_neq in E. destruct H as [H | H]; [done |].
    rewrite (Split_no_sep _ _ H). cbn [length Nat.ltb Nat.leb].
    exists ("invalid domain format: " +:+ d). by split_and!.
Qed.

Lemma C9_invalid_input_fails_before_io_witness :
  (exists msg,
      GetWhoisInfo "   " = Ret (None, Some (Errorf msg))
      /\ (GoStrings.ToLower (GoStrings.TrimSpace "   ") = "" -> msg = "domain cannot be empty")
      /\ (GoStrings.ToLower (GoStrings.TrimSpace "   ") <> ""
          -> msg = "invalid domain format: " +:+ GoStrings.ToLower (GoStrings.TrimSpace "   "))
      /\ forall env st, run env (GetWhoisInfo "   ") st = ((None, Some (Errorf msg)), st))
  /\ (exists msg,
      GetWhoisInfo "LocalHost" = Ret (None, Some (Errorf msg))
      /\ (GoStrings.ToLower (GoStrings.TrimSpace "LocalHost") = "" -> msg = "domain cannot be empty")
      /\ (GoStrings.ToLower (GoStrings.TrimSpace "LocalHost") <> ""
          -> msg = "invalid domain format: " +:+ GoStrings.ToLower (GoStrings.TrimSpace "LocalHost"))
      /\ forall env st, run env (GetWhoisInfo "LocalHost") st = ((None, Some (Errorf msg)), st)).
Proof.
  split.
  - apply (C9_invalid_input_fails_before_io (fun s => GoStrings.ToLower (GoStrings.TrimSpace s))
             "   "). left. reflexivity.
  - apply (C9_invalid_input_fails_before_io (fun s => GoStrings.ToLower (GoStrings.TrimSpace s))
             "LocalHost"). right. reflexivity.
Defined.

(** ** The fields the lines never touch *)

Lemma parseLine_WhoisServer info line :
  WhoisInfo.WhoisServer (parseLine info line) = WhoisInfo.WhoisServer info.
Proof.
  unfold parseLine. destruct (_ || _ || _)%bool; [done |].
  cbv zeta. skip_rules WhoisInfo.WhoisServer. done.
Qed.

Lemma parseWhoisResponse_WhoisServer domain rawData server :
  WhoisInfo.WhoisServer (parseWhoisResponse domain rawData server) = server.
Proof.
  unfold parseWhoisResponse. cbv zeta. whois_proj. unfold scanLines. cbv zeta.
  change server with (WhoisInfo.WhoisServer (newWhoisInfo domain rawData server)) at 2.
  generalize (newWhoisInfo domain rawData server).
  induction (GoStrings.Split rawData _) as [|l ls IH]; intros info; [done |].
  cbn [fold_left]. by rewrite IH, parseLine_WhoisServer.
Qed.

(** ** The fallback over the candidate servers *)

Definition address (server : string) : string := server +:+ ":43".
Definition query (domain : string) : string := domain +:+ String "013" (String "010" "").

(** The text of a successful, non-empty response, if the exchange came to
    one. *)
Definition responded (r : ConnResult) : option string :=
  match r with
  | Scanned lines None =>
      if String.eqb (joinLines lines) "" then None else Some (joinLines lines)
  | _ => None
  end.

(** What went wrong in an exchange that did not. *)
Definition failureOf (r : ConnResult) : error :=
  match r with
  | DialFailed err => Wrapf "connection failed" err
  | WriteFailed err => Wrapf "write failed" err
  | Scanned _ (Some err) => Wrapf "read failed" err
  | Scanned _ None => Errorf "empty response from server"
  end.

(** Each server of the list fails in its turn: the first when asked in
    exchange number [n], the next in exchange number [n + 1], and so on. *)
Fixpoint allFail (env : Env) (domain : string) (n : nat) (servers : list string) : Prop :=
  match servers with
  | [] => True
  | server :: servers' =>
      responded (exchange env n (address server) (query domain)) = None
      /\ allFail env domain (S n) servers'
  end.

(** The state of a run after [k] more exchanges, with the given addresses. *)
Definition afterExchanges (st : RunState) (addrs : list string) : RunState :=
  mkRun (exchanges st + length addrs) (handshakes st) (readings st) (dialled st ++ addrs).

Lemma run_bind {A B} env (p : Prog A) (f : A -> Prog B) st :
  run env (bind p f) st = let '(a, st') := run env p st in run env (f a) st'.
Proof.
  revert st. induction p as [a | ad q k IH | ad sn k IH | k IH]; intros st; cbn [bind run].
  - done.
  - apply IH.
  - apply IH.
  - apply IH.
Qed.

Lemma run_queryWhoisServer env domain server st :
  run env (queryWhoisServer domain server) st
  = let r := exchange env (exchanges st) (address server) (query domain) in
    match responded r with
    | Some raw =>
        (Some (WhoisInfo.set_QueryTime (clock env (readings st))
                 (parseWhoisResponse domain raw server)), None,
         mkRun (S (exchanges st)) (handshakes st) (S (readings st))
           (dialled st ++ [address server]))
    | None =>
        (None, Some (failureOf r),
         mkRun (S (exchanges st)) (handshakes st) (readings st)
           (dialled st ++ [address server]))
    end.
Proof.
  unfold queryWhoisServer. cbn [run]. fold (address server) (query domain). cbv zeta.
  destruct (exchange env (exchanges st) (address server) (query domain))
    as [err | err | lines [err|]]; cbn [run responded failureOf]; try done.
  destruct (String.eqb (joinLines lines) ""); done.
Qed.

Lemma run_tryServers_cons env domain server servers lastErr st :
  run env (tryServers domain (server :: servers) lastErr) st
  = let r := exchange env (exchanges st) (address server) (query domain) in
    match responded r with
    | Some raw =>
        (Some (WhoisInfo.set_QueryTime (clock env (readings st))
                 (parseWhoisResponse domain raw server)), None,
         mkRun (S (exchanges st)) (handshakes st) (S (readings st))
           (dialled st ++ [address server]))
    | None =>
        run env (tryServers domain servers (Some (WhoisError domain (failureOf r) server)))
          (mkRun (S (exchanges st)) (handshakes st) (readings st)
             (dialled st ++ [address server]))
    end.
Proof.
  cbn [tryServers]. unfold mbind, prog_bind. rewrite run_bind, run_queryWhoisServer.
  cbv zeta. destruct (responded _); done.
Qed.

(** Servers that fail are passed over; only the error of the last of them
    is kept. *)
Lemma run_tryServers_failing env domain pre : forall rest lastErr st,
  allFail env domain (exchanges st) pre ->
  run env (tryServers domain (pre ++ rest) lastErr) st
  = run env
      (tryServers domain rest
         (match List.last (map Some pre) None with
          | Some server =>
              Some (WhoisError domain
                      (failureOf (exchange env (exchanges st + length pre - 1)
                                    (address server) (query domain)))
                      server)
          | None => lastErr
          end))
      (afterExchanges st (map address pre)).
Proof.
  induction pre as [|server pre IH]; intros rest lastErr st Hfail.
  - cbn [app map List.last length]. unfold afterExchanges. cbn [length].
    rewrite Nat.add_0_r, app_nil_r. by destruct st.
  - destruct Hfail as [Hone Hrest].
    change ((server :: pre) ++ rest) with (server :: (pre ++ rest)).
    rewrite run_tryServers_cons. cbv zeta. rewrite Hone.
    rewrite IH by exact Hrest.
    unfold afterExchanges. cbn [exchanges handshakes readings dialled map length].
    rewrite <- app_assoc. cbn [app]. rewrite !length_map.
    assert (S (exchanges st) + length pre = exchanges st + S (length pre))%nat as -> by lia.
    f_equal. f_equal.
    destruct pre as [|server' pre'].
    + cbn [map List.last length].
      assert (exchanges st + 1 - 1 = exchanges st)%nat as -> by lia. done.
    + change (List.last (Some server :: map Some (server' :: pre')) None)
        with (List.last (map Some (server' :: pre')) None).
      destruct (List.last (map Some (server' :: pre')) None) eqn:E; [done |].
      exfalso. clear -E. revert server' E.
      induction pre' as [|x xs IHxs]; intros s E; [done |].
      apply (IHxs x). exact E.
Qed.

(** C1: the loop of [GetWhoisInfo] over any ordered list of candidate
    servers asks them in order, one exchange each.  If the servers of [pre]
    fail and the next server answers with a non-empty response, the loop
    returns the record parsed from that response, whose [WhoisServer] is
    that server, and no error; it has dialled [pre] and that server, in
    order, and none of the servers after it.  If every server of a
    non-empty list fails, the loop returns no record and a [WhoisError]
    that carries the last server and that server's failure only, after
    having dialled all of them in order.  [GetWhoisInfo] runs this loop,
    with no error to start with, over the candidates of the last label of
    the domain, of which there is always at least one. *)
Theorem C1_fallback_in_order (env : Env) (domain : string) (st : RunState) :
  (forall pre server post raw,
      allFail env domain (exchanges st) pre ->
      responded (exchange env (exchanges st + length pre) (address server) (query domain))
      = Some raw ->
      exists info st',
        run env (tryServers domain (pre ++ server :: post) None) st = (Some info, None, st')
        /\ info = WhoisInfo.set_QueryTime (clock env (readings st))
                    (parseWhoisResponse domain raw server)
        /\ WhoisInfo.WhoisServer info = server
        /\ dialled st' = dialled st ++ map address (pre ++ [server])
        /\ exchanges st' = (exchanges st + length pre + 1)%nat)
  /\ (forall pre server,
      allFail env domain (exchanges st) (pre ++ [server]) ->
      exists st',
        run env (tryServers domain (pre ++ [server]) None) st
        = (None,
           Some (WhoisError domain
                   (failureOf (exchange env (exchanges st + length pre)
                                 (address server) (query domain)))
                   server),
           st')
        /\ dialled st' = dialled st ++ map address (pre ++ [server])
        /\ exchanges st' = (exchanges st + length pre + 1)%nat)
  /\ (forall input,
      let d := GoStrings.ToLower (GoStrings.TrimSpace input) in
      d <> "" ->
      GoStrings.Contains d "." = true ->
      GetWhoisInfo input
      = tryServers d (candidateServers (List.last (GoStrings.Split d ".") "")) None
      /\ candidateServers (List.last (GoStrings.Split d ".") "") <> []).
Proof.
  split_and!.
  - intros pre server post raw Hfail Hok.
    rewrite run_tryServers_failing by exact Hfail.
    rewrite run_tryServers_cons. cbv zeta.
    unfold afterExchanges at 1 2. cbn [exchanges]. rewrite length_map, Hok.
    eexists _, _. split; [reflexivity |].
    unfold afterExchanges. cbn [exchanges handshakes readings dialled].
    rewrite map_app, length_map, <- app_assoc. cbn [map].
    split_and!; [done | apply parseWhoisResponse_WhoisServer | done | lia].
  - intros pre server Hfail.
    pose proof (run_tryServers_failing env domain (pre ++ [server]) [] None st Hfail) as Hrun.
    rewrite app_nil_r in Hrun. rewrite Hrun. clear Hrun.
    cbn [tryServers run].
    assert (List.last (map Some (pre ++ [server])) None = Some server) as ->.
    { rewrite map_app. cbn [map]. apply last_last. }
    rewrite length_app. cbn [length].
    replace (exchanges st + (length pre + 1) - 1)%nat with (exchanges st + length pre)%nat by lia.
    eexists. split; [reflexivity |].
    unfold afterExchanges. cbn [exchanges dialled]. rewrite length_map, length_app.
    cbn [length]. split; [done | lia].
  - intros input d Hne Hdot. split.
    + by apply GetWhoisInfo_valid.
    + apply candidateServers_nonempty.
Qed.

(** Three candidates of which the first two refuse the connection and the
    third answers; a fourth is listed after them. *)
Definition refusingTwice : Env :=
  mkEnv
    (fun i _ _ =>
       match i with
       | 0%nat | 1%nat => DialFailed (External "connection refused")
       | _ => Scanned ["Domain Name: EXAMPLE.COM"; "Registrar: Example Registrar, Inc."] None
       end)
    (fun _ _ _ => inl (External "no TLS"))
    (fun _ => GoTime.mkTime 2024 3 15 10 0 0 0 0).

(** Every server answers with nothing. *)
Definition silent : Env :=
  mkEnv
    (fun i _ _ => match i with 0%nat => DialFailed (External "timeout") | _ => Scanned [] None end)
    (fun _ _ _ => inl (External "no TLS"))
    (fun _ => GoTime.mkTime 2024 3 15 10 0 0 0 0).

Lemma C1_fallback_in_order_witness :
  (exists info st',
      run refusingTwice
        (tryServers "example.com" (["whois.a.example"; "whois.b.example"]
                                     ++ "whois.c.example" :: ["whois.d.example"]) None)
        start
      = (Some info, None, st')
      /\ info = WhoisInfo.set_QueryTime (clock refusingTwice (readings start))
                  (parseWhoisResponse "example.com"
                     (joinLines ["Domain Name: EXAMPLE.COM"; "Registrar: Example Registrar, Inc."])
                     "whois.c.example")
      /\ WhoisInfo.WhoisServer info = "whois.c.example"
      /\ dialled st'
         = dialled start
           ++ map address (["whois.a.example"; "whois.b.example"] ++ ["whois.c.example"])
      /\ exchanges st'
         = (exchanges start + length ["whois.a.example"; "whois.b.example"] + 1)%nat)
  /\ (exists st',
      run silent (tryServers "example.com" (["whois.iana.org"] ++ ["whois.internic.net"]) None) start
      = (None,
         Some (WhoisError "example.com"
                 (failureOf (exchange silent (exchanges start + length ["whois.iana.org"])
                               (address "whois.internic.net") (query "example.com")))
                 "whois.internic.net"),
         st')
      /\ dialled st' = dialled start ++ map address (["whois.iana.org"] ++ ["whois.internic.net"])
      /\ exchanges st' = (exchanges start + length ["whois.iana.org"] + 1)%nat)
  /\ (GetWhoisInfo " Example.COM "
      = tryServers "example.com"
          (candidateServers (List.last (GoStrings.Split "example.com" ".") "")) None
      /\ candidateServers (List.last (GoStrings.Split "example.com" ".") "") <> []).
Proof.
  split; [| split].
  - apply (proj1 (C1_fallback_in_order refusingTwice "example.com" start)).
    + cbn. repeat split; reflexivity.
    + reflexivity.
  - apply (proj1 (proj2 (C1_fallback_in_order silent "example.com" start))).
    cbn. repeat split; reflexivity.
  - apply (proj2 (proj2 (C1_fallback_in_order silent "example.com" start)) " Example.COM ").
    + intros H. vm_compute in H. discriminate H.
    + reflexivity.
Defined.

(** ** Dates that do not parse *)













(** ** The date rules on dates with a time of day *)

(** C2 at [Registry Expiry Date: 2024-03-15T10:00:00Z]: the value is in
    the first layout of [parseDate], yet the expiration rule hands
    [parseDate] the text after the last colon of the line, ["00Z"], and the
    field stays at the zero time; the same for an [Updated Date] line.
    The creation rule, which has no [.*] before its colon, sets its field
    from the same value. *)
Lemma C2_expiry_with_time_of_day_is_lost :
  let value := "2024-03-15T10:00:00Z" in
  let parsed := GoTime.mkTime 2024 3 15 10 0 0 0 0 in
  parseDate value = parsed
  /\ submatch "expiration_date" ("Registry Expiry Date: " +:+ value)
     = ["Expiry Date: 2024-03-15T10:00:00Z"; "Expir"; "00Z"]
  /\ parseDate "00Z" = GoTime.zeroTime
  /\ WhoisInfo.ExpirationDate
       (parseWhoisResponse "example.com" ("Registry Expiry Date: " +:+ value) "whois.verisign-grs.com")
     = GoTime.zeroTime
  /\ WhoisInfo.UpdatedDate
       (parseWhoisResponse "example.com" ("Updated Date: " +:+ value) "whois.verisign-grs.com")
     = GoTime.zeroTime
  /\ WhoisInfo.CreationDate
       (parseWhoisResponse "example.com" ("Creation Date: " +:+ value) "whois.verisign-grs.com")
     = parsed
  /\ WhoisInfo.ExpirationDate
       (parseWhoisResponse "example.com" "Registry Expiry Date: 2024-03-15" "whois.verisign-grs.com")
     = GoTime.mkTime 2024 3 15 0 0 0 0 0.
Proof. cbv zeta. split_and!; vm_compute; reflexivity. Qed.

(** ** Matching a certificate against a domain *)

Lemma HasPrefix_spec s p :
  GoStrings.HasPrefix s p = true <-> exists rest, s = p +:+ rest.
Proof.
  revert s. induction p as [|b p IH]; intros s; cbn [GoStrings.HasPrefix String.append].
  - split; [intros _; by exists s | done].
  - destruct s as [|a s].
    + split; [done | by intros [rest ?]].
    + rewrite andb_true_iff, IH, Ascii.eqb_eq. split.
      * intros [-> [rest ->]]. by exists rest.
      * intros [rest H]. injection H as -> ->. eauto.
Qed.

Lemma append_cons a p rest : String a p +:+ rest = String a (p +:+ rest).
Proof. reflexivity. Qed.

Lemma append_nil rest : "" +:+ rest = rest.
Proof. reflexivity. Qed.

Lemma drop_app p rest : GoStrings.drop (String.length p) (p +:+ rest) = rest.
Proof.
  induction p as [|b p IH].
  - rewrite append_nil. by destruct rest.
  - rewrite append_cons. exact IH.
Qed.

Lemma length_append p rest :
  String.length (p +:+ rest) = (String.length p + String.length rest)%nat.
Proof.
  induction p as [|b p IH]; [done |].
  rewrite append_cons. cbn [String.length]. by rewrite IH.
Qed.

Lemma drop_split n s :
  (n <= String.length s)%nat ->
  exists pre, s = pre +:+ GoStrings.drop n s /\ String.length pre = n.
Proof.
  revert s. induction n as [|n IH]; intros s Hn.
  - exists "". by destruct s.
  - destruct s as [|a s]; cbn [String.length] in Hn; [lia |].
    destruct (IH s) as (pre & Hpre & Hlen); [lia |].
    exists (String a pre). rewrite append_cons. cbn [GoStrings.drop String.length].
    split; [by f_equal | by f_equal].
Qed.

Lemma HasSuffix_spec s p :
  GoStrings.HasSuffix s p = true <-> exists pre, s = pre +:+ p.
Proof.
  unfold GoStrings.HasSuffix. rewrite andb_true_iff, Nat.leb_le, String.eqb_eq. split.
  - intros [Hlen Hdrop].
    destruct (drop_split (String.length s - String.length p) s) as (pre & Hpre & _); [lia |].
    exists pre. by rewrite Hdrop in Hpre.
  - intros [pre ->]. rewrite length_append. split; [lia |].
    replace (String.length pre + String.length p - String.length p)%nat
      with (String.length pre) by lia.
    apply drop_app.
Qed.

Definition mismatchMessage : string := "certificate does not match domain".

Lemma validateCertificate_mismatch cert domain env st :
  mismatchMessage ∈ elems (fst (run env (validateCertificate cert domain) st))
  <-> matchesDomain cert domain = false.
Proof.
  unfold validateCertificate, mismatchMessage. cbn [run]. cbv zeta.
  destruct (GoTime.After _ _), (GoTime.Before _ _), (matchesDomain cert domain),
    (_ && _)%bool;
    cbn [negb fst append elems default app];
    (split; [intros H | intros H; try discriminate]);
    repeat (apply elem_of_cons in H as [H | H]; [discriminate |]);
    try (by apply elem_of_nil in H);
    try done;
    set_solver.
Qed.

(** A domain that ends, byte for byte, with [.base] matches a
    certificate with the SAN [*.base]. *)
Lemma matchesDomain_suffix cert base pre :
  ("*." +:+ base) ∈ elems (x509.DNSNames cert) ->
  matchesDomain cert (pre +:+ "." +:+ base) = true.
Proof.
  intros Hin. unfold matchesDomain.
  destruct (GoStrings.EqualFold (x509.SubjectCommonName cert) _); [done |].
  apply existsb_exists. exists ("*." +:+ base). split; [by apply list_elem_of_In |].
  destruct (GoStrings.EqualFold ("*." +:+ base) _); [done |].
  change (GoStrings.HasPrefix ("*." +:+ base) "*.") with true.
  change (GoStrings.drop 2 ("*." +:+ base)) with base.
  apply orb_true_iff. left. apply HasSuffix_spec. by exists pre.
Qed.

(** A certificate for [*.EXAMPLE.COM], in upper case, and one for
    [*.example.com]. *)
Definition upperCaseWildcard : x509.Certificate :=
  x509.mkCertificate "CN=Example CA" "CN=wildcard" "wildcard" "1"
    (GoTime.mkTime 2023 3 15 10 0 0 0 0) (GoTime.mkTime 2025 3 15 10 0 0 0 0)
    (Some ["*.EXAMPLE.COM"]) "SHA256-RSA" "RSA" 3 (x509.RSAPublicKey 2048)
    false 5 None None.

Definition lowerCaseWildcard : x509.Certificate :=
  x509.mkCertificate "CN=Example CA" "CN=wildcard" "wildcard" "1"
    (GoTime.mkTime 2023 3 15 10 0 0 0 0) (GoTime.mkTime 2025 3 15 10 0 0 0 0)
    (Some ["*.example.com"]) "SHA256-RSA" "RSA" 3 (x509.RSAPublicKey 2048)
    false 5 None None.

(** C4: the wildcard rule of [matchesDomain] compares the domain with the
    base of a SAN [*.base] up to case ([strings.EqualFold]), but looks
    for the suffix [.base] byte for byte ([strings.HasSuffix]), in the
    same condition.  So the SAN [*.EXAMPLE.COM] covers [example.com] and
    [SUB.EXAMPLE.COM], but not [sub.example.com], which ends with
    [.EXAMPLE.COM] up to case and which the SAN [*.example.com] covers;
    for [sub.example.com] [validateCertificate] reports that the
    certificate does not match the domain.  What does hold for every
    certificate: a domain that ends, byte for byte, with [.base] matches
    a SAN [*.base], and [validateCertificate] appends its message exactly
    when [matchesDomain] is false, whatever the clock says. *)
Theorem C4_wildcard_suffix_is_case_sensitive :
  (elems (x509.DNSNames upperCaseWildcard) = ["*.EXAMPLE.COM"]
   /\ matchesDomain upperCaseWildcard "example.com" = true
   /\ matchesDomain upperCaseWildcard "SUB.EXAMPLE.COM" = true
   /\ matchesDomain upperCaseWildcard "sub.example.com" = false
   /\ GoStrings.EqualFold "sub.example.com" ("sub" +:+ "." +:+ "EXAMPLE.COM") = true
   /\ GoStrings.HasSuffix "sub.example.com" ("." +:+ "EXAMPLE.COM") = false
   /\ matchesDomain lowerCaseWildcard "sub.example.com" = true
   /\ forall env st,
        "certificate does not match domain"
          ∈ elems (fst (run env (validateCertificate upperCaseWildcard "sub.example.com") st)))
  /\ (forall cert base pre,
        ("*." +:+ base) ∈ elems (x509.DNSNames cert) ->
        matchesDomain cert (pre +:+ "." +:+ base) = true)
  /\ (forall cert domain env st,
        "certificate does not match domain"
          ∈ elems (fst (run env (validateCertificate cert domain) st))
        <-> matchesDomain cert domain = false).
Proof.
  split_and!; try reflexivity.
  - intros env st. by apply validateCertificate_mismatch.
  - apply matchesDomain_suffix.
  - intros cert domain env st. apply validateCertificate_mismatch.
Qed.

(** ** Days until expiry *)

(** A float64 that is no positive number: a zero, a negative number,
    minus infinity, or no number at all. *)
Definition notPositive (f : GoTime.float64) : Prop :=
  match f with
  | S754_zero _ => True
  | S754_finite s _ _ => s = true
  | S754_infinity s => s = true
  | S754_nan => True
  end.

Lemma binary_round_aux_notPositive mx ex lx :
  notPositive (binary_round_aux 53 1024 true mx ex lx).
Proof.
  unfold binary_round_aux.
  destruct (shr_fexp 53 1024 mx ex lx) as [mrs' e'].
  destruct (shr_fexp 53 1024 _ e' loc_Exact) as [mrs'' e''].
  destruct (shr_m mrs'') as [|m|m]; cbn [notPositive]; [done | | done].
  destruct (Z.leb _ _); done.
Qed.

Lemma binary_round_notPositive m e : notPositive (binary_round 53 1024 true m e).
Proof.
  unfold binary_round. destruct (shl_align _ _ _) as [mz ez].
  apply binary_round_aux_notPositive.
Qed.

Lemma f64_of_int_notPositive n : n <= 0 -> notPositive (GoTime.f64_of_int n).
Proof.
  intros Hn. unfold GoTime.f64_of_int, binary_normalize.
  destruct n as [|p|p]; [done | lia |].
  apply binary_round_notPositive.
Qed.

Lemma f64_div_notPositive x m e :
  notPositive x -> notPositive (GoTime.f64_div x (S754_finite false m e)).
Proof.
  unfold GoTime.f64_div, SFdiv. destruct x as [s | s | | s mx ex]; cbn [notPositive]; try done.
  - intros ->. done.
  - intros ->. destruct (SFdiv_core_binary _ _ _ _ _ _) as [[mz ez] lz].
    cbn [xorb]. apply binary_round_aux_notPositive.
Qed.

Lemma f64_add_notPositive x y :
  notPositive x -> notPositive y -> notPositive (GoTime.f64_add x y).
Proof.
  unfold GoTime.f64_add, SFadd.
  destruct x as [sx | sx | | sx mx ex], y as [sy | sy | | sy my ey];
    cbn [notPositive]; try done.
  - intros _ _. by destruct sx, sy.
  - intros -> ->. done.
  - intros -> ->. unfold binary_normalize, cond_Zopp. cbn [Z.opp Z.add].
    apply binary_round_notPositive.
Qed.

Lemma int_of_f64_notPositive f : notPositive f -> GoTime.int_of_f64 f <= 0.
Proof.
  unfold GoTime.int_of_f64. destruct f as [s | s | | s m e]; cbn [notPositive]; try done.
  intros ->.
  assert (0 <= match e with
               | Z.neg p => Z.pos m / 2 ^ Z.pos p
               | _ => Z.pos m * 2 ^ e
               end) as Ha.
  { destruct e as [|p|p].
    - lia.
    - apply Z.mul_nonneg_nonneg; [lia | apply Z.pow_nonneg; lia].
    - apply Z.div_pos; [lia | apply Z.pow_pos_nonneg; lia]. }
  destruct (_ && _)%bool; [lia | done].
Qed.

Lemma Hours_notPositive d : d <= 0 -> notPositive (GoTime.Hours d).
Proof.
  intros Hd. unfold GoTime.Hours. cbv zeta.
  assert (0 < GoTime.HourNs) as Hpos by done.
  apply f64_add_notPositive.
  - apply f64_of_int_notPositive.
    pose proof (Z.quot_opp_l d GoTime.HourNs ltac:(lia)) as Hq.
    pose proof (Z.quot_pos (- d) GoTime.HourNs ltac:(lia) Hpos). lia.
  - assert (exists m e, GoTime.f64_of_int GoTime.HourNs = S754_finite false m e)
      as (m & e & ->) by (vm_compute; eauto).
    apply f64_div_notPositive, f64_of_int_notPositive.
    pose proof (Z.rem_opp_l d GoTime.HourNs ltac:(lia)) as Hr.
    pose proof (Z.rem_nonneg (- d) GoTime.HourNs ltac:(lia) ltac:(lia)). lia.
Qed.

(** When [notAfter] is behind the clock the day count is not positive. *)
Lemma daysUntil_past notAfter now :
  GoTime.After now notAfter = true -> daysUntil notAfter now <= 0.
Proof.
  unfold GoTime.After. intros Hpast%Z.ltb_lt.
  unfold daysUntil. apply int_of_f64_notPositive.
  assert (exists m e, GoTime.f64_of_int 24 = S754_finite false m e)
    as (m & e & ->) by (vm_compute; eauto).
  apply f64_div_notPositive, Hours_notPositive.
  unfold GoTime.Sub. cbv zeta.
  destruct (_ <? GoTime.minDuration); [done |].
  destruct (GoTime.maxDuration <? _) eqn:E; [| lia].
  apply Z.ltb_lt in E. unfold GoTime.maxDuration in E. lia.
Qed.

(** A certificate whose validity ended at 10:00, probed at 11:00 of the
    same day. *)
Definition expiredAnHourAgo : x509.Certificate :=
  x509.mkCertificate "CN=Example CA" "CN=example.com" "example.com" "1"
    (GoTime.mkTime 2023 3 15 10 0 0 0 0) (GoTime.mkTime 2024 3 15 10 0 0 0 0)
    (Some ["example.com"]) "SHA256-RSA" "RSA" 3 (x509.RSAPublicKey 2048)
    false 5 None None.

Definition atEleven : Env :=
  mkEnv
    (fun _ _ _ => DialFailed (External "no WHOIS"))
    (fun _ _ _ => inr (tls.mkConnectionState [expiredAnHourAgo] tls.VersionTLS13 "TLS_AES_128_GCM_SHA256"))
    (fun _ => GoTime.mkTime 2024 3 15 11 0 0 0 0).

Lemma run_Now {A} env (k : GoTime.Time -> Prog A) st :
  run env (Now k) st
  = run env (k (clock env (readings st)))
      (mkRun (exchanges st) (handshakes st) (S (readings st)) (dialled st)).
Proof. reflexivity. Qed.

Lemma run_DialTLS {A} env ad sn (k : error + tls.ConnectionState -> Prog A) st :
  run env (DialTLS ad sn k) st
  = run env (k (handshake env (handshakes st) ad sn))
      (mkRun (exchanges st) (S (handshakes st)) (readings st) (dialled st ++ [ad])).
Proof. reflexivity. Qed.

(** The validity test of [GetSSLInfo]: the clock is read only when the
    days are positive. *)
Lemma run_isValid env days notBefore st :
  run env (if 0 <? days
           then Now (fun now2 => Ret (GoTime.After now2 notBefore))
           else Ret false) st
  = (((0 <? days) && GoTime.After (clock env (readings st)) notBefore)%bool,
     if 0 <? days
     then mkRun (exchanges st) (handshakes st) (S (readings st)) (dialled st)
     else st).
Proof. destruct (0 <? days); cbn [run andb]; reflexivity. Qed.

Lemma run_validateCertificate env cert domain st :
  exists errors,
    run env (validateCertificate cert domain) st
    = (errors, mkRun (exchanges st) (handshakes st) (S (S (readings st))) (dialled st)).
Proof. unfold validateCertificate. cbn [run readings exchanges handshakes dialled]. eauto. Qed.

(** C3, as the code has it: for the leaf certificate of a successful
    handshake, [GetSSLInfo] sets [DaysUntilExpiry] to
    [int(time.Until(notAfter).Hours() / 24)], the hours to [notAfter] as a
    float64, divided by 24, with the fraction discarded, and [IsValid] to
    true exactly when [DaysUntilExpiry > 0] and the clock is after
    [notBefore].  When [notAfter] is in the past, [DaysUntilExpiry] is not
    positive and [IsValid] is false. *)
Theorem C3_days_until_expiry (env : Env) (domain : string) (port : list Z)
    (st : RunState) (state : tls.ConnectionState)
    (cert : x509.Certificate) (chain : list x509.Certificate) :
  let d := GoStrings.ToLower (GoStrings.TrimSpace domain) in
  let now1 := clock env (S (readings st)) in
  let now2 := clock env (S (S (readings st))) in
  d <> "" ->
  handshake env (handshakes st) (tlsAddress d port) d = inr state ->
  tls.PeerCertificates state = cert :: chain ->
  exists info st',
    run env (GetSSLInfo domain port) st = (Some info, None, st')
    /\ SSLInfo.DaysUntilExpiry info
       = GoTime.int_of_f64
           (GoTime.f64_div (GoTime.Hours (GoTime.Sub (x509.NotAfter cert) now1))
              (GoTime.f64_of_int 24))
    /\ SSLInfo.IsValid info
       = ((0 <? SSLInfo.DaysUntilExpiry info) && GoTime.After now2 (x509.NotBefore cert))%bool
    /\ (GoTime.After now1 (x509.NotAfter cert) = true ->
        SSLInfo.DaysUntilExpiry info <= 0 /\ SSLInfo.IsValid info = false).
Proof.
  intros d now1 now2 Hne Hshake Hcerts.
  unfold GetSSLInfo, GetSSLInfoWith. cbv beta. fold d. cbv zeta.
  destruct (String.eqb d "") eqn:E; [by apply String.eqb_eq in E |].
  rewrite run_DialTLS, Hshake, Hcerts, !run_Now. cbn [readings]. fold now1.
  unfold mbind, prog_bind. rewrite run_bind, run_isValid.
  cbn [readings]. fold now2. rewrite run_bind.
  match goal with
  | |- context [run env (validateCertificate cert d) ?s] =>
      destruct (run_validateCertificate env cert d s) as [errors ->]
  end.
  cbn [run]. eexists _, _. split; [reflexivity |].
  cbn [SSLInfo.DaysUntilExpiry SSLInfo.IsValid].
  split_and!; [done | done |].
  intros Hpast. pose proof (daysUntil_past _ _ Hpast) as Hdays.
  split; [exact Hdays |].
  destruct (0 <? daysUntil (x509.NotAfter cert) now1) eqn:Epos; [| done].
  apply Z.ltb_lt in Epos. lia.
Qed.

Lemma C3_days_until_expiry_witness :
  exists info st',
    run atEleven (GetSSLInfo "Example.com" []) start = (Some info, None, st')
    /\ SSLInfo.DaysUntilExpiry info
       = GoTime.int_of_f64
           (GoTime.f64_div
              (GoTime.Hours (GoTime.Sub (x509.NotAfter expiredAnHourAgo)
                               (clock atEleven (S (readings start)))))
              (GoTime.f64_of_int 24))
    /\ SSLInfo.IsValid info
       = ((0 <? SSLInfo.DaysUntilExpiry info)
          && GoTime.After (clock atEleven (S (S (readings start))))
               (x509.NotBefore expiredAnHourAgo))%bool
    /\ (GoTime.After (clock atEleven (S (readings start))) (x509.NotAfter expiredAnHourAgo) = true ->
        SSLInfo.DaysUntilExpiry info <= 0 /\ SSLInfo.IsValid info = false).
Proof.
  apply (C3_days_until_expiry atEleven "Example.com" [] start
           (tls.mkConnectionState [expiredAnHourAgo] tls.VersionTLS13 "TLS_AES_128_GCM_SHA256")
           expiredAnHourAgo []).
  - discriminate.
  - reflexivity.
  - reflexivity.
Defined.

(** The floor fails an hour after expiry: [notAfter] is in the past and
    the floor of the day count is -1, but [GetSSLInfo] reports 0 days,
    which is not negative. *)
Lemma C3_counterexample :
  let notAfter := x509.NotAfter expiredAnHourAgo in
  let now := clock atEleven 1 in
  exists info st',
    run atEleven (GetSSLInfo "example.com" []) start = (Some info, None, st')
    /\ GoTime.After now notAfter = true
    /\ (GoTime.absNano notAfter - GoTime.absNano now) / (24 * GoTime.HourNs) = -1
    /\ SSLInfo.DaysUntilExpiry info = 0
    /\ ~ SSLInfo.DaysUntilExpiry info < 0
    /\ SSLInfo.DaysUntilExpiry info
       <> (GoTime.absNano notAfter - GoTime.absNano now) / (24 * GoTime.HourNs).
Proof.
  cbv zeta. eexists _, _. split; [vm_compute; reflexivity |].
  cbn [SSLInfo.DaysUntilExpiry]. split_and!; vm_compute; congruence.
Qed.

(** ** Dates: what a layout writes, [parseDate] reads back *)

Module DateRoundTrip.
Import GoTime.

(** ** Digits *)

Lemma range_check (P : Z -> bool) (k : Z) :
  forallb (fun i => P (Z.of_nat i)) (seq 0 (Z.to_nat k)) = true ->
  forall n, 0 <= n < k -> P n = true.
Proof.
  intros H n Hn. rewrite forallb_forall in H.
  rewrite <- (Z2Nat.id n) by lia. apply H, in_seq. lia.
Qed.

Lemma digitChar_digit d :
  0 <= d < 10 -> isDigitByte (digitChar d) = true /\ digitVal (digitChar d) = d.
Proof.
  intros Hd.
  pose proof (range_check
                (fun d => isDigitByte (digitChar d) && (digitVal (digitChar d) =? d))%bool
                10 eq_refl d Hd) as H.
  cbv beta in H. apply andb_true_iff in H as [H1 H2]. split; [done | lia].
Qed.

Definition twoDigits (n : Z) : string :=
  String (digitChar (n / 10)) (String (digitChar (n mod 10)) "").

Definition fourDigits (n : Z) : string :=
  String (digitChar (n / 1000)) (String (digitChar (n / 100 mod 10))
    (String (digitChar (n / 10 mod 10)) (String (digitChar (n mod 10)) ""))).

Lemma appendInt_2 n : 0 <= n < 100 -> appendInt n 2 = twoDigits n.
Proof.
  intros Hn. apply String.eqb_eq.
  apply (range_check (fun n => String.eqb (appendInt n 2) (twoDigits n)) 100); [| exact Hn].
  vm_compute. reflexivity.
Qed.

Lemma appendInt_4 n : 0 <= n < 10000 -> appendInt n 4 = fourDigits n.
Proof.
  intros Hn. apply String.eqb_eq.
  apply (range_check (fun n => String.eqb (appendInt n 4) (fourDigits n)) 10000); [| exact Hn].
  vm_compute. reflexivity.
Qed.

Lemma appendInt_0 n :
  0 <= n < 100 ->
  appendInt n 0 = if n <? 10 then String (digitChar n) "" else twoDigits n.
Proof.
  intros Hn. apply String.eqb_eq.
  apply (range_check
           (fun n => String.eqb (appendInt n 0)
                       (if n <? 10 then String (digitChar n) "" else twoDigits n)) 100); [| exact Hn].
  vm_compute. reflexivity.
Qed.

(** ** Reading back what [appendInt] wrote *)

Ltac divlia := Z.to_euclidean_division_equations; lia.

Lemma getnum_twoDigits n rest fixed :
  0 <= n < 100 -> getnum (twoDigits n +:+ rest) fixed = Some (n, rest).
Proof.
  intros Hn. unfold twoDigits. rewrite !append_cons, append_nil. unfold getnum.
  destruct (digitChar_digit (n / 10)) as [-> ->]; [divlia |].
  destruct (digitChar_digit (n mod 10)) as [-> ->]; [divlia |].
  do 2 f_equal. divlia.
Qed.

Lemma getnum_oneDigit d c rest fixed :
  0 <= d < 10 -> isDigitByte c = false ->
  getnum (String (digitChar d) (String c rest)) fixed
  = if fixed then None else Some (d, String c rest).
Proof.
  intros Hd Hc. unfold getnum.
  destruct (digitChar_digit d Hd) as [-> ->]. by rewrite Hc.
Qed.

Lemma getLongYear_fourDigits y rest :
  0 <= y < 10000 -> getLongYear (fourDigits y +:+ rest) = Some (y, rest).
Proof.
  intros Hy. unfold fourDigits. rewrite !append_cons, append_nil. unfold getLongYear.
  destruct (digitChar_digit (y / 1000)) as [H1 V1]; [divlia |].
  destruct (digitChar_digit (y / 100 mod 10)) as [H2 V2]; [divlia |].
  destruct (digitChar_digit (y / 10 mod 10)) as [H3 V3]; [divlia |].
  destruct (digitChar_digit (y mod 10)) as [H4 V4]; [divlia |].
  rewrite H1. cbn [digitsVal]. rewrite H1, H2, H3, H4, V1, V2, V3, V4.
  do 2 f_equal. divlia.
Qed.

Lemma lookup_shortMonth m rest :
  1 <= m <= 12 ->
  lookup 0 shortMonthNames (nth (Z.to_nat (m - 1)) shortMonthNames "" +:+ rest)
  = Some (m - 1, rest).
Proof.
  intros Hm.
  assert (m = 1 \/ m = 2 \/ m = 3 \/ m = 4 \/ m = 5 \/ m = 6 \/ m = 7 \/ m = 8
          \/ m = 9 \/ m = 10 \/ m = 11 \/ m = 12) as Hcases by lia.
  repeat destruct Hcases as [-> | Hcases]; try subst m; vm_compute; reflexivity.
Qed.

Lemma lookup_longMonth m rest :
  1 <= m <= 12 ->
  lookup 0 longMonthNames (nth (Z.to_nat (m - 1)) longMonthNames "" +:+ rest)
  = Some (m - 1, rest).
Proof.
  intros Hm.
  assert (m = 1 \/ m = 2 \/ m = 3 \/ m = 4 \/ m = 5 \/ m = 6 \/ m = 7 \/ m = 8
          \/ m = 9 \/ m = 10 \/ m = 11 \/ m = 12) as Hcases by lia.
  repeat destruct Hcases as [-> | Hcases]; try subst m; vm_compute; reflexivity.
Qed.

(** ** Timestamps a layout can show *)

Definition validDate (t : Time) : Prop :=
  0 <= Year t < 10000 /\ 1 <= Month t <= 12 /\ 1 <= Day t <= daysIn (Month t) (Year t).

Definition validClock (t : Time) : Prop :=
  0 <= Hour t < 24 /\ 0 <= Minute t < 60 /\ 0 <= Second t < 60.

Definition midnight (t : Time) : Prop :=
  Hour t = 0 /\ Minute t = 0 /\ Second t = 0.

Definition shows (sd : std) (layout : string) : bool :=
  existsb (fun c => match snd c, sd with
                    | stdHour, stdHour => true
                    | stdISO8601ColonTZ, stdISO8601ColonTZ => true
                    | _, _ => false
                    end) (fst (chunks layout)).

(** A timestamp that [layout] can show in full: a date of a four-digit
    year, no fraction of a second, the time of day only if the layout has
    one and a zone other than UTC only if the layout has one (then an
    offset of whole minutes, under 25 hours). *)
Definition representable (layout : string) (t : Time) : Prop :=
  validDate t
  /\ Nanosecond t = 0
  /\ (if shows stdHour layout then validClock t else midnight t)
  /\ (if shows stdISO8601ColonTZ layout
      then Offset t mod 60 = 0 /\ -90000 < Offset t < 90000
      else Offset t = 0).

Lemma daysIn_le m y : daysIn m y <= 31.
Proof. unfold daysIn. repeat destruct (_ =? _); cbn; try destruct (isLeap y); lia. Qed.

(** ** Chunks, one after the other *)

Lemma append_assoc (a b c : string) : (a +:+ b) +:+ c = a +:+ b +:+ c.
Proof. induction a as [|x a IH]; [done |]. rewrite !append_cons. by rewrite IH. Qed.

Lemma append_nil_r (a : string) : a +:+ "" = a.
Proof. induction a as [|x a IH]; [done |]. rewrite append_cons. by rewrite IH. Qed.

Lemma parseChunks_app cs1 cs2 f s :
  parseChunks (cs1 ++ cs2) f s
  = match parseChunks cs1 f s with
    | Some (f', s') => parseChunks cs2 f' s'
    | None => None
    end.
Proof.
  revert f s. induction cs1 as [|[p sd] cs1 IH]; intros f s; cbn [app parseChunks]; [done |].
  destruct (skip s p) as [v|]; [| done].
  destruct (parseStd sd f v) as [[f' v']|]; [apply IH | done].
Qed.

Lemma formatChunks_app cs1 cs2 t :
  formatChunks (cs1 ++ cs2) t = formatChunks cs1 t +:+ formatChunks cs2 t.
Proof.
  induction cs1 as [|[p sd] cs1 IH]; cbn [app formatChunks]; [done |].
  by rewrite IH, !append_assoc.
Qed.

(** Literal text without a space is skipped as it stands. *)
Lemma skip_byte c rest :
  Ascii.eqb c " " = false -> skip (String c rest) (String c "") = Some rest.
Proof.
  intros Hc. unfold skip. cbn [skipFrom]. by rewrite Hc, Ascii.eqb_refl.
Qed.

Lemma skip_nothing rest : skip rest "" = Some rest.
Proof. reflexivity. Qed.

Lemma skip_other c c' rest :
  Ascii.eqb c " " = false -> Ascii.eqb c' c = false ->
  skip (String c' rest) (String c "") = None.
Proof. intros Hc Hne. unfold skip. cbn [skipFrom]. by rewrite Hc, Hne. Qed.

Ltac strnorm := repeat (rewrite append_nil || rewrite append_cons || rewrite append_assoc).

(** The date, as the layouts that start with the year have it. *)
Definition dateChunks (sep : ascii) : list (string * std) :=
  [("", stdLongYear); (String sep "", stdZeroMonth); (String sep "", stdZeroDay)].

Definition withDate (t : Time) (f : fields) : fields :=
  mkFields (Year t) (Month t) (Day t) (f_hour f) (f_min f) (f_sec f) (f_nsec f)
    (f_utc f) (f_zoneOffset f).

Lemma parse_dateChunks sep t f rest :
  validDate t -> Ascii.eqb sep " " = false ->
  parseChunks (dateChunks sep) f (formatChunks (dateChunks sep) t +:+ rest)
  = Some (withDate t f, rest).
Proof.
  intros (Hy & Hm & Hd) Hsep. pose proof (daysIn_le (Month t) (Year t)) as Hle.
  unfold dateChunks. cbn [formatChunks formatStd parseChunks].
  rewrite appendInt_4, !appendInt_2 by lia. strnorm.
  rewrite skip_nothing. cbn [parseStd]. rewrite getLongYear_fourDigits by lia.
  rewrite skip_byte by done. rewrite getnum_twoDigits by lia.
  assert (((Month t <=? 0) || (12 <? Month t))%bool = false) as ->
    by (apply orb_false_iff; lia).
  cbn [f_year f_month f_day f_hour f_min f_sec f_nsec f_utc f_zoneOffset].
  rewrite skip_byte by done. rewrite getnum_twoDigits by lia.
  done.
Qed.

(** A digit is none of the other bytes. *)
Lemma digit_cases c :
  isDigitByte c = true ->
  c ∈ ["0"; "1"; "2"; "3"; "4"; "5"; "6"; "7"; "8"; "9"]%char.
Proof.
  destruct c as [[] [] [] [] [] [] [] []]; intros H; try discriminate H;
    repeat (first [apply list_elem_of_here | apply list_elem_of_further]).
Qed.

Lemma digit_neq c c' :
  isDigitByte c = true -> isDigitByte c' = false ->
  Ascii.eqb c c' = false /\ Ascii.eqb c' c = false.
Proof.
  intros Hc Hc'. split; apply Ascii.eqb_neq; intros ->; congruence.
Qed.

Lemma digit_not_space c : isDigitByte c = true -> GoStrings.isSpace c = false.
Proof.
  intros H%digit_cases.
  repeat (apply elem_of_cons in H as [-> | H]; [reflexivity |]). by apply elem_of_nil in H.
Qed.

Lemma twoDigits_digits n :
  0 <= n < 100 ->
  exists a b, twoDigits n = String a (String b "")
              /\ isDigitByte a = true /\ isDigitByte b = true.
Proof.
  intros Hn. eexists _, _. split; [reflexivity |].
  split; apply digitChar_digit; divlia.
Qed.

Lemma fourDigits_digits n :
  0 <= n < 10000 ->
  exists a b c d, fourDigits n = String a (String b (String c (String d "")))
                  /\ isDigitByte a = true /\ isDigitByte b = true
                  /\ isDigitByte c = true /\ isDigitByte d = true.
Proof.
  intros Hn. eexists _, _, _, _. split; [reflexivity |].
  split_and!; apply digitChar_digit; divlia.
Qed.

(** ** The time of day and the zone *)

Definition clockChunks (sep : ascii) : list (string * std) :=
  [(String sep "", stdHour); (":", stdZeroMinute); (":", stdZeroSecond)].

Definition withClock (t : Time) (f : fields) : fields :=
  mkFields (f_year f) (f_month f) (f_day f) (Hour t) (Minute t) (Second t) (f_nsec f)
    (f_utc f) (f_zoneOffset f).

(** What follows the seconds is no fraction. *)
Definition noFraction (rest : string) : Prop :=
  match rest with
  | String p _ => commaOrPeriod p = false
  | EmptyString => True
  end.

Lemma skip_space_digits n rest :
  0 <= n < 100 ->
  skip (String " " (twoDigits n +:+ rest)) " " = Some (twoDigits n +:+ rest).
Proof.
  intros Hn. destruct (twoDigits_digits n Hn) as (a & b & -> & Ha & Hb).
  strnorm. unfold skip. cbn [skipFrom Ascii.eqb Bool.eqb cutspace].
  destruct (digit_neq a " " Ha eq_refl) as [-> _]. done.
Qed.

Lemma parseStd_zeroSecond s f rest :
  0 <= s < 60 -> noFraction rest ->
  parseStd stdZeroSecond f (twoDigits s +:+ rest)
  = Some (mkFields (f_year f) (f_month f) (f_day f) (f_hour f) (f_min f) s (f_nsec f)
            (f_utc f) (f_zoneOffset f), rest).
Proof.
  intros Hs Hrest. cbn [parseStd]. rewrite getnum_twoDigits by lia.
  assert (inRange 0 60 s = true) as -> by (unfold inRange; lia).
  destruct rest as [|p [|d r]]; [done | done |].
  cbn [noFraction] in Hrest. by rewrite Hrest.
Qed.

Lemma parseStd_hour h f rest :
  0 <= h < 24 ->
  parseStd stdHour f (twoDigits h +:+ rest)
  = Some (mkFields (f_year f) (f_month f) (f_day f) h (f_min f) (f_sec f) (f_nsec f)
            (f_utc f) (f_zoneOffset f), rest).
Proof.
  intros Hh. cbn [parseStd]. rewrite getnum_twoDigits by lia.
  by assert (inRange 0 24 h = true) as -> by (unfold inRange; lia).
Qed.

Lemma parseStd_zeroMinute m f rest :
  0 <= m < 60 ->
  parseStd stdZeroMinute f (twoDigits m +:+ rest)
  = Some (mkFields (f_year f) (f_month f) (f_day f) (f_hour f) m (f_sec f) (f_nsec f)
            (f_utc f) (f_zoneOffset f), rest).
Proof.
  intros Hm. cbn [parseStd]. rewrite getnum_twoDigits by lia.
  by assert (inRange 0 60 m = true) as -> by (unfold inRange; lia).
Qed.

Lemma parse_clockChunks sep t f rest :
  validClock t -> sep = "T"%char \/ sep = " "%char -> noFraction rest ->
  parseChunks (clockChunks sep) f (formatChunks (clockChunks sep) t +:+ rest)
  = Some (withClock t f, rest).
Proof.
  intros (Hh & Hm & Hs) Hsep Hrest.
  unfold clockChunks. cbn [formatChunks formatStd parseChunks].
  rewrite !appendInt_2 by lia. strnorm.
  assert (skip (String sep (twoDigits (Hour t) +:+ String ":" (twoDigits (Minute t)
                   +:+ String ":" (twoDigits (Second t) +:+ rest)))) (String sep "")
          = Some (twoDigits (Hour t) +:+ String ":" (twoDigits (Minute t)
                   +:+ String ":" (twoDigits (Second t) +:+ rest)))) as ->.
  { destruct Hsep as [-> | ->]; [by apply skip_byte | apply skip_space_digits; lia]. }
  rewrite parseStd_hour by done. rewrite skip_byte by done.
  rewrite parseStd_zeroMinute by done. rewrite skip_byte by done.
  rewrite parseStd_zeroSecond by done. done.
Qed.

Definition zoneChunks : list (string * std) := [("", stdISO8601ColonTZ)].

Definition withZone (t : Time) (f : fields) : fields :=
  mkFields (f_year f) (f_month f) (f_day f) (f_hour f) (f_min f) (f_sec f) (f_nsec f)
    (if Offset t =? 0 then true else f_utc f)
    (if Offset t =? 0 then f_zoneOffset f else Offset t).

Lemma getnum_twoDigits_alone n :
  0 <= n < 100 ->
  getnum (String (digitChar (n / 10)) (String (digitChar (n mod 10)) "")) true = Some (n, "").
Proof. intros Hn. by rewrite <- (getnum_twoDigits n "" true Hn). Qed.

Lemma parse_zoneChunks t f rest :
  Offset t mod 60 = 0 -> -90000 < Offset t < 90000 ->
  parseChunks zoneChunks f (formatChunks zoneChunks t +:+ rest) = Some (withZone t f, rest).
Proof.
  intros Hmod Hoff. unfold zoneChunks, withZone. cbn [formatChunks formatStd parseChunks].
  destruct (Offset t =? 0) eqn:E0.
  - strnorm. rewrite skip_nothing. done.
  - apply Z.eqb_neq in E0. cbv zeta.
    set (zone := Z.quot (Offset t) 60).
    set (hr := Z.quot (Z.abs zone) 60). set (mm := Z.rem (Z.abs zone) 60).
    assert (0 <= hr < 25 /\ 0 <= mm < 60 /\ Z.abs (Offset t) = (hr * 60 + mm) * 60
            /\ (zone < 0 <-> Offset t < 0)) as (Hhr & Hmm & Habs & Hsign)
      by (subst hr mm zone; divlia).
    rewrite !appendInt_2 by lia. unfold twoDigits. strnorm. rewrite skip_nothing.
    destruct (zone <? 0) eqn:Ez; strnorm; cbn [parseStd Ascii.eqb Bool.eqb];
      rewrite !getnum_twoDigits_alone by lia;
      (assert (((24 <? hr) || (60 <? mm))%bool = false) as -> by (apply orb_false_iff; lia));
      do 3 f_equal; lia.
Qed.

(** ** The end of [parse] *)

Lemma finish_valid t h mi s ns utc off :
  validDate t ->
  h = Hour t -> mi = Minute t -> s = Second t -> ns = Nanosecond t ->
  (utc = true /\ Offset t = 0) \/ (utc = false /\ off = -1 /\ Offset t = 0)
  \/ (utc = false /\ off = Offset t /\ off <> -1) ->
  finish (mkFields (Year t) (Month t) (Day t) h mi s ns utc off) = Some t.
Proof.
  intros (Hy & Hm & Hd) -> -> -> -> Hzone. unfold finish.
  cbn [f_year f_month f_day f_hour f_min f_sec f_nsec f_utc f_zoneOffset].
  assert ((Month t <? 0) = false) as -> by lia.
  assert ((Day t <? 0) = false) as -> by lia.
  assert (((Day t <? 1) || (daysIn (Month t) (Year t) <? Day t))%bool = false) as ->
    by (apply orb_false_iff; lia).
  destruct t as [y m d h mi s ns o]. cbn [Offset] in *.
  destruct Hzone as [[-> ->] | [(-> & -> & ->) | (-> & -> & Hne)]]; cbn [negb Z.eqb]; try done.
  destruct (o =? -1) eqn:E; [lia | done].
Qed.

(** ** The layouts of [parseDate], in chunks *)

Definition L1 : string := "2006-01-02T15:04:05Z07:00".
Definition L2 : string := "2006-01-02T15:04:05Z".
Definition L3 : string := "2006-01-02 15:04:05".
Definition L4 : string := "2006-01-02".
Definition L5 : string := "02-Jan-2006".
Definition L6 : string := "January 02 2006".
Definition L7 : string := "2-Jan-2006".
Definition L8 : string := "2006/01/02".

Lemma formats_layouts : formats = [L1; L2; L3; L4; L5; L6; L7; L8].
Proof. reflexivity. Qed.

Lemma chunks_L1 : chunks L1 = (dateChunks "-" ++ clockChunks "T" ++ zoneChunks, "").
Proof. reflexivity. Qed.
Lemma chunks_L2 : chunks L2 = (dateChunks "-" ++ clockChunks "T", "Z").
Proof. reflexivity. Qed.
Lemma chunks_L3 : chunks L3 = (dateChunks "-" ++ clockChunks " ", "").
Proof. reflexivity. Qed.
Lemma chunks_L4 : chunks L4 = (dateChunks "-", "").
Proof. reflexivity. Qed.
Lemma chunks_L5 : chunks L5 = ([("", stdZeroDay); ("-", stdMonth); ("-", stdLongYear)], "").
Proof. reflexivity. Qed.
Lemma chunks_L6 : chunks L6 = ([("", stdLongMonth); (" ", stdZeroDay); (" ", stdLongYear)], "").
Proof. reflexivity. Qed.
Lemma chunks_L7 : chunks L7 = ([("", stdDay); ("-", stdMonth); ("-", stdLongYear)], "").
Proof. reflexivity. Qed.
Lemma chunks_L8 : chunks L8 = (dateChunks "/", "").
Proof. reflexivity. Qed.

(** [Parse] and [Format] over the chunks of a layout. *)
Lemma Parse_chunks layout cs tail value :
  chunks layout = (cs, tail) ->
  Parse layout value
  = match parseChunks cs fields0 value with
    | Some (f, v) =>
        match skip v tail with
        | Some EmptyString => finish f
        | _ => None
        end
    | None => None
    end.
Proof. intros H. unfold Parse. by rewrite H. Qed.

Lemma Format_chunks layout cs tail t :
  chunks layout = (cs, tail) -> Format t layout = formatChunks cs t +:+ tail.
Proof. intros H. unfold Format. by rewrite H. Qed.

(** ** Each layout reads back what it wrote *)

Ltac fields_proj :=
  unfold withZone, withClock, withDate, fields0;
  cbn [f_year f_month f_day f_hour f_min f_sec f_nsec f_utc f_zoneOffset].

Lemma Parse_Format_L1 t : representable L1 t -> Parse L1 (Format t L1) = Some t.
Proof.
  intros (Hdate & Hns & Hclock & Hmod & Hoff). cbn in Hclock.
  rewrite (Parse_chunks _ _ _ _ chunks_L1), (Format_chunks _ _ _ _ chunks_L1).
  rewrite !formatChunks_app, parseChunks_app, !append_assoc.
  rewrite parse_dateChunks by done. rewrite parseChunks_app.
  rewrite parse_clockChunks; [| done | by left |].
  - rewrite parse_zoneChunks by done. rewrite skip_nothing. fields_proj.
    apply finish_valid; try done.
    destruct (Offset t =? 0) eqn:E.
    + left. split; [done | lia].
    + right; right. split_and!; [done | done |]. intros H. rewrite H in Hmod. done.
  - cbn [formatChunks zoneChunks formatStd]. cbv zeta. strnorm.
    destruct (Offset t =? 0); [done |]. by destruct (_ <? 0).
Qed.

Lemma Parse_Format_L3 t : representable L3 t -> Parse L3 (Format t L3) = Some t.
Proof.
  intros (Hdate & Hns & Hclock & Hoff). cbn in Hclock, Hoff.
  rewrite (Parse_chunks _ _ _ _ chunks_L3), (Format_chunks _ _ _ _ chunks_L3).
  rewrite !formatChunks_app, parseChunks_app, !append_assoc.
  rewrite parse_dateChunks by done.
  rewrite parse_clockChunks; [| done | by right | done].
  rewrite skip_nothing. fields_proj.
  apply finish_valid; try done. right; left. done.
Qed.

Lemma Parse_Format_dateOnly layout sep t :
  chunks layout = (dateChunks sep, "") -> Ascii.eqb sep " " = false ->
  validDate t -> Nanosecond t = 0 -> midnight t -> Offset t = 0 ->
  Parse layout (Format t layout) = Some t.
Proof.
  intros Hchunks Hsep Hdate Hns (Hh & Hm & Hs) Hoff.
  rewrite (Parse_chunks _ _ _ _ Hchunks), (Format_chunks _ _ _ _ Hchunks).
  rewrite parse_dateChunks by done. rewrite skip_nothing. fields_proj.
  apply finish_valid; try done. right; left. done.
Qed.

Lemma skip_space_byte c rest :
  Ascii.eqb c " " = false -> skip (String " " (String c rest)) " " = Some (String c rest).
Proof.
  intros Hc. unfold skip. cbn [skipFrom Ascii.eqb Bool.eqb cutspace]. by rewrite Hc.
Qed.

Lemma parseStd_zeroDay d f rest :
  0 <= d < 100 ->
  parseStd stdZeroDay f (twoDigits d +:+ rest)
  = Some (mkFields (f_year f) (f_month f) d (f_hour f) (f_min f) (f_sec f) (f_nsec f)
            (f_utc f) (f_zoneOffset f), rest).
Proof. intros Hd. cbn [parseStd]. by rewrite getnum_twoDigits. Qed.

Lemma parseStd_longYear y f rest :
  0 <= y < 10000 ->
  parseStd stdLongYear f (fourDigits y +:+ rest)
  = Some (mkFields y (f_month f) (f_day f) (f_hour f) (f_min f) (f_sec f) (f_nsec f)
            (f_utc f) (f_zoneOffset f), rest).
Proof. intros Hy. cbn [parseStd]. by rewrite getLongYear_fourDigits. Qed.

Lemma parseStd_month m f rest :
  1 <= m <= 12 ->
  parseStd stdMonth f (nth (Z.to_nat (m - 1)) shortMonthNames "" +:+ rest)
  = Some (mkFields (f_year f) m (f_day f) (f_hour f) (f_min f) (f_sec f) (f_nsec f)
            (f_utc f) (f_zoneOffset f), rest).
Proof.
  intros Hm. cbn [parseStd]. rewrite lookup_shortMonth by done.
  by replace (m - 1 + 1) with m by lia.
Qed.

Lemma parseStd_longMonth m f rest :
  1 <= m <= 12 ->
  parseStd stdLongMonth f (nth (Z.to_nat (m - 1)) longMonthNames "" +:+ rest)
  = Some (mkFields (f_year f) m (f_day f) (f_hour f) (f_min f) (f_sec f) (f_nsec f)
            (f_utc f) (f_zoneOffset f), rest).
Proof.
  intros Hm. cbn [parseStd]. rewrite lookup_longMonth by done.
  by replace (m - 1 + 1) with m by lia.
Qed.

(** The day, the month by its short name and the year, as [L5] and [L7]
    have them after the day. *)
Lemma parse_monthYear t f rest :
  validDate t ->
  parseChunks [("-", stdMonth); ("-", stdLongYear)] f
    (String "-" (nth (Z.to_nat (Month t - 1)) shortMonthNames ""
                   +:+ String "-" (fourDigits (Year t) +:+ rest)))
  = Some (mkFields (Year t) (Month t) (f_day f) (f_hour f) (f_min f) (f_sec f) (f_nsec f)
            (f_utc f) (f_zoneOffset f), rest).
Proof.
  intros (Hy & Hm & Hd). cbn [parseChunks].
  rewrite skip_byte by done. rewrite parseStd_month by done.
  rewrite skip_byte by done. rewrite parseStd_longYear by done. done.
Qed.

Lemma Format_L5 t :
  validDate t ->
  Format t L5
  = twoDigits (Day t)
    +:+ String "-" (nth (Z.to_nat (Month t - 1)) shortMonthNames ""
                      +:+ String "-" (fourDigits (Year t) +:+ "")).
Proof.
  intros (Hy & Hm & Hd). pose proof (daysIn_le (Month t) (Year t)).
  rewrite (Format_chunks _ _ _ _ chunks_L5). cbn [formatChunks formatStd].
  rewrite appendInt_4, appendInt_2 by lia. by strnorm.
Qed.

Lemma Format_L7 t :
  validDate t ->
  Format t L7
  = (if Day t <? 10 then String (digitChar (Day t)) "" else twoDigits (Day t))
    +:+ String "-" (nth (Z.to_nat (Month t - 1)) shortMonthNames ""
                      +:+ String "-" (fourDigits (Year t) +:+ "")).
Proof.
  intros (Hy & Hm & Hd). pose proof (daysIn_le (Month t) (Year t)).
  rewrite (Format_chunks _ _ _ _ chunks_L7). cbn [formatChunks formatStd].
  rewrite appendInt_4, appendInt_0 by lia. by strnorm.
Qed.

Lemma Format_L6 t :
  validDate t ->
  Format t L6
  = nth (Z.to_nat (Month t - 1)) longMonthNames ""
    +:+ String " " (twoDigits (Day t) +:+ String " " (fourDigits (Year t) +:+ "")).
Proof.
  intros (Hy & Hm & Hd). pose proof (daysIn_le (Month t) (Year t)).
  rewrite (Format_chunks _ _ _ _ chunks_L6). cbn [formatChunks formatStd].
  rewrite appendInt_4, appendInt_2 by lia. by strnorm.
Qed.

Lemma Parse_Format_L5 t : representable L5 t -> Parse L5 (Format t L5) = Some t.
Proof.
  intros (Hdate & Hns & (Hh & Hm & Hs) & Hoff). cbn in Hoff.
  pose proof (daysIn_le (Month t) (Year t)). pose proof Hdate as (Hy & Hmo & Hd).
  rewrite (Parse_chunks _ _ _ _ chunks_L5), Format_L5 by done.
  cbn [parseChunks]. rewrite skip_nothing, parseStd_zeroDay by lia.
  pose proof (parse_monthYear t) as Hrest. cbn [parseChunks] in Hrest.
  rewrite Hrest by done. rewrite skip_nothing. fields_proj.
  apply finish_valid; try done. right; left. done.
Qed.

Lemma Parse_Format_L7 t : representable L7 t -> Parse L7 (Format t L7) = Some t.
Proof.
  intros (Hdate & Hns & (Hh & Hm & Hs) & Hoff). cbn in Hoff.
  pose proof (daysIn_le (Month t) (Year t)). pose proof Hdate as (Hy & Hmo & Hd).
  rewrite (Parse_chunks _ _ _ _ chunks_L7), Format_L7 by done.
  cbn [parseChunks]. rewrite skip_nothing.
  assert (parseStd stdDay fields0
            ((if Day t <? 10 then String (digitChar (Day t)) "" else twoDigits (Day t))
             +:+ String "-" (nth (Z.to_nat (Month t - 1)) shortMonthNames ""
                               +:+ String "-" (fourDigits (Year t) +:+ "")))
          = Some (mkFields 0 (-1) (Day t) 0 0 0 0 false (-1),
                  String "-" (nth (Z.to_nat (Month t - 1)) shortMonthNames ""
                                +:+ String "-" (fourDigits (Year t) +:+ "")))) as ->.
  { cbn [parseStd]. destruct (Day t <? 10) eqn:E.
    - strnorm. rewrite getnum_oneDigit by (done || lia). done.
    - rewrite getnum_twoDigits by lia. done. }
  pose proof (parse_monthYear t) as Hrest. cbn [parseChunks] in Hrest.
  rewrite Hrest by done. rewrite skip_nothing. fields_proj.
  apply finish_valid; try done. right; left. done.
Qed.

Lemma Parse_Format_L6 t : representable L6 t -> Parse L6 (Format t L6) = Some t.
Proof.
  intros (Hdate & Hns & (Hh & Hm & Hs) & Hoff). cbn in Hoff.
  pose proof (daysIn_le (Month t) (Year t)). pose proof Hdate as (Hy & Hmo & Hd).
  rewrite (Parse_chunks _ _ _ _ chunks_L6), Format_L6 by done.
  cbn [parseChunks]. rewrite skip_nothing, parseStd_longMonth by lia.
  rewrite skip_space_digits by lia. rewrite parseStd_zeroDay by lia.
  destruct (fourDigits_digits (Year t) Hy) as (a & b & c & d & Hfour & Ha & _).
  assert (skip (String " " (fourDigits (Year t) +:+ "")) " "
          = Some (fourDigits (Year t) +:+ "")) as ->.
  { rewrite Hfour. strnorm. apply skip_space_byte. by apply (digit_neq a " "). }
  rewrite parseStd_longYear by done. rewrite skip_nothing. fields_proj.
  apply finish_valid; try done. right; left. done.
Qed.

(** ** What the layouts write *)

Definition dateText (sep : ascii) (t : Time) (rest : string) : string :=
  fourDigits (Year t)
  +:+ String sep (twoDigits (Month t) +:+ String sep (twoDigits (Day t) +:+ rest)).

Definition clockText (sep : ascii) (t : Time) (rest : string) : string :=
  String sep (twoDigits (Hour t)
              +:+ String ":" (twoDigits (Minute t) +:+ String ":" (twoDigits (Second t) +:+ rest))).

Lemma format_dateChunks sep t rest :
  validDate t -> formatChunks (dateChunks sep) t +:+ rest = dateText sep t rest.
Proof.
  intros (Hy & Hm & Hd). pose proof (daysIn_le (Month t) (Year t)).
  unfold dateChunks, dateText. cbn [formatChunks formatStd].
  rewrite appendInt_4, !appendInt_2 by lia. by strnorm.
Qed.

Lemma format_clockChunks sep t rest :
  validClock t -> formatChunks (clockChunks sep) t +:+ rest = clockText sep t rest.
Proof.
  intros (Hh & Hm & Hs). unfold clockChunks, clockText. cbn [formatChunks formatStd].
  rewrite !appendInt_2 by lia. by strnorm.
Qed.

(** ** A layout that does not fit *)

Lemma Parse_no_year layout value :
  head (fst (chunks layout)) = Some ("", stdLongYear) ->
  getLongYear value = None -> Parse layout value = None.
Proof.
  intros Hhead Hyear. unfold Parse. destruct (chunks layout) as [[|[p sd] cs] tail]; [done |].
  cbn in Hhead. injection Hhead as -> ->.
  cbn [parseChunks parseStd]. rewrite skip_nothing. by rewrite Hyear.
Qed.

Lemma Parse_first_fails layout sd value :
  head (fst (chunks layout)) = Some ("", sd) ->
  parseStd sd fields0 value = None -> Parse layout value = None.
Proof.
  intros Hhead Hfail. unfold Parse. destruct (chunks layout) as [[|[p sd'] cs] tail]; [done |].
  cbn in Hhead. injection Hhead as -> ->.
  cbn [parseChunks]. rewrite skip_nothing. by rewrite Hfail.
Qed.

Lemma Parse_second_fails layout sd1 p sd2 cs tail value f v :
  chunks layout = (("", sd1) :: (p, sd2) :: cs, tail) ->
  parseStd sd1 fields0 value = Some (f, v) ->
  skip v p = None -> Parse layout value = None.
Proof.
  intros Hchunks Hfirst Hskip. rewrite (Parse_chunks _ _ _ _ Hchunks).
  cbn [parseChunks]. by rewrite skip_nothing, Hfirst, Hskip.
Qed.

Lemma Parse_after_date layout cs tail p sd t rest :
  chunks layout = (dateChunks "-" ++ (p, sd) :: cs, tail) ->
  validDate t ->
  match skip rest p with
  | Some v => forall f, parseStd sd f v = None
  | None => True
  end ->
  Parse layout (dateText "-" t rest) = None.
Proof.
  intros Hchunks Hdate Hfail. rewrite (Parse_chunks _ _ _ _ Hchunks).
  rewrite parseChunks_app, <- format_dateChunks by done.
  rewrite parse_dateChunks by done. cbn [parseChunks].
  destruct (skip rest p) as [v|]; [| done]. by rewrite Hfail.
Qed.

Lemma getLongYear_dash3 a b rest :
  getLongYear (String a (String b (String "-" rest))) = None.
Proof.
  destruct rest as [|d r]; [done |]. unfold getLongYear.
  destruct (isDigitByte a) eqn:Ha; [| done]. cbn [digitsVal]. rewrite Ha.
  by destruct (isDigitByte b).
Qed.

Lemma getLongYear_dash2 a rest : getLongYear (String a (String "-" rest)) = None.
Proof.
  destruct rest as [|c [|d r]]; [done | done |]. unfold getLongYear.
  destruct (isDigitByte a) eqn:Ha; [| done]. cbn [digitsVal]. by rewrite Ha.
Qed.

Lemma month_cases m :
  1 <= m <= 12 ->
  m = 1 \/ m = 2 \/ m = 3 \/ m = 4 \/ m = 5 \/ m = 6 \/ m = 7 \/ m = 8
  \/ m = 9 \/ m = 10 \/ m = 11 \/ m = 12.
Proof. lia. Qed.

Lemma getLongYear_longMonth m rest :
  1 <= m <= 12 -> getLongYear (nth (Z.to_nat (m - 1)) longMonthNames "" +:+ rest) = None.
Proof.
  intros Hcases%month_cases. destruct rest as [|c r];
    repeat destruct Hcases as [-> | Hcases]; try subst m; vm_compute; reflexivity.
Qed.

Lemma getnum_longMonth m rest fixed :
  1 <= m <= 12 -> getnum (nth (Z.to_nat (m - 1)) longMonthNames "" +:+ rest) fixed = None.
Proof.
  intros Hcases%month_cases.
  repeat destruct Hcases as [-> | Hcases]; try subst m; vm_compute; reflexivity.
Qed.

Lemma lookup_longMonth_digit c rest :
  isDigitByte c = true -> lookup 0 longMonthNames (String c rest) = None.
Proof.
  intros H%digit_cases.
  repeat (apply elem_of_cons in H as [-> | H]; [vm_compute; reflexivity |]).
  by apply elem_of_nil in H.
Qed.

(** ** Nothing to trim *)

Fixpoint endsWell (s : string) : bool :=
  match s with
  | EmptyString => false
  | String c r =>
      match r with
      | EmptyString => negb (GoStrings.isSpace c)
      | String _ _ => endsWell r
      end
  end.

Lemma TrimRight_endsWell s : endsWell s = true -> GoStrings.TrimRight s = s.
Proof.
  induction s as [|c r IH]; [done |]. cbn [endsWell GoStrings.TrimRight].
  destruct r as [|c' r'].
  - cbn [GoStrings.TrimRight]. intros H. by destruct (GoStrings.isSpace c).
  - intros H. by rewrite (IH H).
Qed.

Lemma TrimSpace_id c r :
  GoStrings.isSpace c = false -> endsWell (String c r) = true ->
  GoStrings.TrimSpace (String c r) = String c r.
Proof.
  intros Hc Hend. unfold GoStrings.TrimSpace. cbn [GoStrings.TrimLeft]. rewrite Hc.
  by apply TrimRight_endsWell.
Qed.

Lemma endsWell_cons c r : endsWell r = true -> endsWell (String c r) = true.
Proof. intros H. cbn [endsWell]. by destruct r. Qed.

Lemma endsWell_app a b : endsWell b = true -> endsWell (a +:+ b) = true.
Proof.
  intros H. induction a as [|c a IH]; [done |]. rewrite append_cons. by apply endsWell_cons.
Qed.

Lemma endsWell_twoDigits n : 0 <= n < 100 -> endsWell (twoDigits n) = true.
Proof.
  intros Hn. destruct (twoDigits_digits n Hn) as (a & b & -> & _ & Hb).
  cbn [endsWell]. by rewrite (digit_not_space b Hb).
Qed.

Lemma endsWell_fourDigits n : 0 <= n < 10000 -> endsWell (fourDigits n) = true.
Proof.
  intros Hn. destruct (fourDigits_digits n Hn) as (a & b & c & d & -> & _ & _ & _ & Hd).
  cbn [endsWell]. by rewrite (digit_not_space d Hd).
Qed.

Lemma fourDigits_head n rest :
  0 <= n < 10000 ->
  exists c r, fourDigits n +:+ rest = String c r /\ isDigitByte c = true.
Proof.
  intros Hn. destruct (fourDigits_digits n Hn) as (a & b & c & d & -> & Ha & _).
  strnorm. eauto.
Qed.

Lemma twoDigits_head n rest :
  0 <= n < 100 ->
  exists c r, twoDigits n +:+ rest = String c r /\ isDigitByte c = true.
Proof.
  intros Hn. destruct (twoDigits_digits n Hn) as (a & b & -> & Ha & _).
  strnorm. eauto.
Qed.

Lemma longMonth_head m rest :
  1 <= m <= 12 ->
  exists c r, nth (Z.to_nat (m - 1)) longMonthNames "" +:+ rest = String c r
              /\ GoStrings.isSpace c = false.
Proof.
  intros Hcases%month_cases.
  repeat destruct Hcases as [-> | Hcases]; try subst m; eexists _, _; split;
    try (vm_compute; reflexivity); reflexivity.
Qed.

(** ** [parseDate] on what each layout writes *)

Lemma tryFormats_miss f fs s : Parse f s = None -> tryFormats (f :: fs) s = tryFormats fs s.
Proof. intros H. cbn [tryFormats]. by rewrite H. Qed.

Lemma tryFormats_hit f fs s t : Parse f s = Some t -> tryFormats (f :: fs) s = t.
Proof. intros H. cbn [tryFormats]. by rewrite H. Qed.

Lemma trimmed_dateText sep t rest :
  validDate t -> endsWell (twoDigits (Day t) +:+ rest) = true ->
  GoStrings.TrimSpace (dateText sep t rest) = dateText sep t rest.
Proof.
  intros (Hy & Hm & Hd) Hend. unfold dateText.
  assert (endsWell (fourDigits (Year t)
                    +:+ String sep (twoDigits (Month t)
                                    +:+ String sep (twoDigits (Day t) +:+ rest))) = true) as Hall.
  { apply endsWell_app, endsWell_cons, endsWell_app, endsWell_cons, Hend. }
  destruct (fourDigits_head (Year t)
              (String sep (twoDigits (Month t) +:+ String sep (twoDigits (Day t) +:+ rest))) Hy)
    as (c & r & Heq & Hc).
  rewrite Heq in *. apply TrimSpace_id; [by apply digit_not_space | done].
Qed.

Lemma endsWell_clockText sep t rest :
  validClock t -> rest = "" \/ endsWell rest = true -> endsWell (clockText sep t rest) = true.
Proof.
  intros (Hh & Hm & Hs) Hrest. unfold clockText.
  apply endsWell_cons, endsWell_app, endsWell_cons, endsWell_app, endsWell_cons.
  destruct Hrest as [-> | Hrest].
  - rewrite append_nil_r. apply endsWell_twoDigits. lia.
  - by apply endsWell_app.
Qed.

Definition zoneText (t : Time) : string := formatStd stdISO8601ColonTZ t.

Lemma endsWell_zoneText t :
  Offset t mod 60 = 0 -> -90000 < Offset t < 90000 -> endsWell (zoneText t) = true.
Proof.
  intros Hmod Hoff. unfold zoneText. cbn [formatStd]. cbv zeta.
  destruct (Offset t =? 0); [done |].
  apply endsWell_app, endsWell_app. rewrite append_cons, append_nil.
  apply endsWell_cons. rewrite appendInt_2 by divlia. apply endsWell_twoDigits. divlia.
Qed.

Lemma Format_L1 t :
  representable L1 t -> Format t L1 = dateText "-" t (clockText "T" t (zoneText t)).
Proof.
  intros (Hdate & Hns & Hclock & Hzone). cbn in Hclock.
  rewrite (Format_chunks _ _ _ _ chunks_L1), !formatChunks_app, !append_assoc.
  rewrite format_dateChunks, format_clockChunks by done.
  unfold zoneChunks. cbn [formatChunks]. by strnorm; rewrite !append_nil_r.
Qed.

Lemma Format_L2 t :
  representable L2 t -> Format t L2 = dateText "-" t (clockText "T" t "Z").
Proof.
  intros (Hdate & Hns & Hclock & Hzone). cbn in Hclock.
  rewrite (Format_chunks _ _ _ _ chunks_L2), !formatChunks_app, !append_assoc.
  by rewrite format_dateChunks, format_clockChunks.
Qed.

Lemma Format_L3 t :
  representable L3 t -> Format t L3 = dateText "-" t (clockText " " t "").
Proof.
  intros (Hdate & Hns & Hclock & Hzone). cbn in Hclock.
  rewrite (Format_chunks _ _ _ _ chunks_L3), !formatChunks_app, !append_assoc.
  by rewrite format_dateChunks, format_clockChunks.
Qed.

Lemma Format_L4 t : representable L4 t -> Format t L4 = dateText "-" t "".
Proof.
  intros (Hdate & _). rewrite (Format_chunks _ _ _ _ chunks_L4). by apply format_dateChunks.
Qed.

Lemma Format_L8 t : representable L8 t -> Format t L8 = dateText "/" t "".
Proof.
  intros (Hdate & _). rewrite (Format_chunks _ _ _ _ chunks_L8). by apply format_dateChunks.
Qed.

Lemma parseDate_L1 t : representable L1 t -> parseDate (Format t L1) = t.
Proof.
  intros Hrep. pose proof Hrep as (Hdate & Hns & Hclock & Hmod & Hoff). cbn in Hclock.
  pose proof (daysIn_le (Month t) (Year t)). pose proof Hdate as (Hy & Hm & Hd).
  unfold parseDate. rewrite Format_L1 at 1 by done.
  rewrite trimmed_dateText; [| done |].
  - rewrite <- Format_L1 by done. rewrite formats_layouts.
    apply tryFormats_hit, Parse_Format_L1, Hrep.
  - apply endsWell_app, endsWell_clockText; [done |]. right. by apply endsWell_zoneText.
Qed.

Lemma parseDate_L2 t : representable L2 t -> parseDate (Format t L2) = t.
Proof.
  intros Hrep. pose proof Hrep as (Hdate & Hns & Hclock & Hoff). cbn in Hclock, Hoff.
  assert (representable L1 t) as Hrep1.
  { split_and!; try done. cbn. rewrite Hoff. done. }
  rewrite <- (parseDate_L1 t Hrep1) at 2. f_equal.
  rewrite Format_L1, Format_L2 by done. unfold zoneText. cbn [formatStd]. by rewrite Hoff.
Qed.

Lemma parseDate_L3 t : representable L3 t -> parseDate (Format t L3) = t.
Proof.
  intros Hrep. pose proof Hrep as (Hdate & Hns & Hclock & Hoff). cbn in Hclock, Hoff.
  pose proof (daysIn_le (Month t) (Year t)). pose proof Hdate as (Hy & Hm & Hd).
  unfold parseDate. rewrite Format_L3 at 1 by done.
  rewrite trimmed_dateText; [| done |].
  - rewrite formats_layouts.
    rewrite tryFormats_miss.
    2:{ apply (Parse_after_date L1 _ _ _ _ _ _ chunks_L1 Hdate).
        unfold clockText. by rewrite skip_other. }
    rewrite tryFormats_miss.
    2:{ apply (Parse_after_date L2 _ _ _ _ _ _ chunks_L2 Hdate).
        unfold clockText. by rewrite skip_other. }
    rewrite <- Format_L3 by done. apply tryFormats_hit, Parse_Format_L3, Hrep.
  - apply endsWell_app, endsWell_clockText; [done | by left].
Qed.

Lemma parseDate_L4 t : representable L4 t -> parseDate (Format t L4) = t.
Proof.
  intros Hrep. pose proof Hrep as (Hdate & Hns & Hclock & Hoff). cbn in Hclock, Hoff.
  pose proof (daysIn_le (Month t) (Year t)). pose proof Hdate as (Hy & Hm & Hd).
  unfold parseDate. rewrite Format_L4 at 1 by done.
  rewrite trimmed_dateText; [| done |].
  - rewrite formats_layouts.
    rewrite tryFormats_miss by (by apply (Parse_after_date L1 _ _ _ _ _ _ chunks_L1 Hdate)).
    rewrite tryFormats_miss by (by apply (Parse_after_date L2 _ _ _ _ _ _ chunks_L2 Hdate)).
    rewrite tryFormats_miss by (by apply (Parse_after_date L3 _ _ _ _ _ _ chunks_L3 Hdate)).
    rewrite <- Format_L4 by done.
    apply tryFormats_hit, (Parse_Format_dateOnly L4 "-"); by try done.
  - rewrite append_nil_r. apply endsWell_twoDigits. lia.
Qed.

Lemma dateOnly_L5 layout t :
  layout = L5 \/ layout = L6 \/ layout = L7 \/ layout = L8 ->
  representable layout t ->
  validDate t /\ Nanosecond t = 0 /\ midnight t /\ Offset t = 0.
Proof. intros [-> | [-> | [-> | ->]]] H; exact H. Qed.

Lemma parseDate_L5 t : representable L5 t -> parseDate (Format t L5) = t.
Proof.
  intros Hrep. pose proof Hrep as (Hdate & Hns & Hclock & Hoff). cbn in Hclock, Hoff.
  pose proof (daysIn_le (Month t) (Year t)). pose proof Hdate as (Hy & Hm & Hd).
  unfold parseDate. rewrite Format_L5 at 1 by done.
  destruct (twoDigits_digits (Day t)) as (a & b & Hday & Ha & Hb); [lia |].
  assert (endsWell (fourDigits (Year t) +:+ "") = true) as Hend
    by (rewrite append_nil_r; by apply endsWell_fourDigits).
  rewrite Hday. strnorm.
  rewrite TrimSpace_id;
    [| by apply digit_not_space
     | by apply endsWell_cons, endsWell_cons, endsWell_cons, endsWell_app, endsWell_cons].
  rewrite formats_layouts.
  do 4 (rewrite tryFormats_miss by (by apply Parse_no_year; [| apply getLongYear_dash3])).
  apply tryFormats_hit. rewrite <- (Parse_Format_L5 t Hrep), Format_L5, Hday by done.
  by strnorm.
Qed.

Lemma parseDate_L6 t : representable L6 t -> parseDate (Format t L6) = t.
Proof.
  intros Hrep. pose proof Hrep as (Hdate & Hns & Hclock & Hoff). cbn in Hclock, Hoff.
  pose proof (daysIn_le (Month t) (Year t)). pose proof Hdate as (Hy & Hm & Hd).
  unfold parseDate. rewrite Format_L6 at 1 by done.
  set (rest := String " " (twoDigits (Day t) +:+ String " " (fourDigits (Year t) +:+ ""))).
  assert (endsWell rest = true) as Hend.
  { subst rest. apply endsWell_cons, endsWell_app, endsWell_cons.
    rewrite append_nil_r. by apply endsWell_fourDigits. }
  assert (GoStrings.TrimSpace (nth (Z.to_nat (Month t - 1)) longMonthNames "" +:+ rest)
          = nth (Z.to_nat (Month t - 1)) longMonthNames "" +:+ rest) as ->.
  { pose proof (endsWell_app (nth (Z.to_nat (Month t - 1)) longMonthNames "") rest Hend) as Hall.
    destruct (longMonth_head (Month t) rest Hm) as (c & r & Heq & Hc).
    rewrite Heq in *. by apply TrimSpace_id. }
  rewrite formats_layouts.
  do 4 (rewrite tryFormats_miss by (by apply Parse_no_year; [| apply getLongYear_longMonth])).
  rewrite tryFormats_miss.
  2:{ apply (Parse_first_fails L5 stdZeroDay); [done |].
      cbn [parseStd]. by rewrite getnum_longMonth. }
  apply tryFormats_hit. rewrite <- (Parse_Format_L6 t Hrep), Format_L6 by done. done.
Qed.

Lemma parseDate_L7 t : representable L7 t -> parseDate (Format t L7) = t.
Proof.
  intros Hrep. pose proof Hrep as (Hdate & Hns & Hclock & Hoff). cbn in Hclock, Hoff.
  pose proof (daysIn_le (Month t) (Year t)). pose proof Hdate as (Hy & Hm & Hd).
  destruct (Day t <? 10) eqn:Eday.
  - unfold parseDate. rewrite Format_L7 at 1 by done. rewrite Eday. strnorm.
    destruct (digitChar_digit (Day t)) as [Hdigit _]; [lia |].
    assert (endsWell (fourDigits (Year t) +:+ "") = true) as Hend
      by (rewrite append_nil_r; by apply endsWell_fourDigits).
    rewrite TrimSpace_id;
      [| by apply digit_not_space
       | by apply endsWell_cons, endsWell_cons, endsWell_app, endsWell_cons].
    rewrite formats_layouts.
    do 4 (rewrite tryFormats_miss by (by apply Parse_no_year; [| apply getLongYear_dash2])).
    rewrite tryFormats_miss.
    2:{ apply (Parse_first_fails L5 stdZeroDay); [done |].
        cbn [parseStd]. rewrite getnum_oneDigit by (done || lia). done. }
    rewrite tryFormats_miss.
    2:{ apply (Parse_first_fails L6 stdLongMonth); [done |].
        cbn [parseStd]. by rewrite lookup_longMonth_digit. }
    apply tryFormats_hit. rewrite <- (Parse_Format_L7 t Hrep), Format_L7, Eday by done.
    by strnorm.
  - rewrite <- (parseDate_L5 t Hrep) at 2. f_equal.
    rewrite Format_L5, Format_L7 by done. by rewrite Eday.
Qed.

Lemma parseDate_L8 t : representable L8 t -> parseDate (Format t L8) = t.
Proof.
  intros Hrep. pose proof Hrep as (Hdate & Hns & Hclock & Hoff). cbn in Hclock, Hoff.
  pose proof (daysIn_le (Month t) (Year t)). pose proof Hdate as (Hy & Hm & Hd).
  unfold parseDate. rewrite Format_L8 at 1 by done.
  rewrite trimmed_dateText; [| done | by rewrite append_nil_r; apply endsWell_twoDigits; lia].
  rewrite formats_layouts.
  assert (forall layout sd cs tail,
             chunks layout = (("", stdLongYear) :: ("-", sd) :: cs, tail) ->
             Parse layout (dateText "/" t "") = None) as Hyear.
  { intros layout sd cs tail Hchunks.
    eapply Parse_second_fails; [exact Hchunks | by apply parseStd_longYear |].
    by apply skip_other. }
  rewrite (tryFormats_miss L1) by (by eapply Hyear).
  rewrite (tryFormats_miss L2) by (by eapply Hyear).
  rewrite (tryFormats_miss L3) by (by eapply Hyear).
  rewrite (tryFormats_miss L4) by (by eapply Hyear).
  destruct (fourDigits_digits (Year t) Hy) as (a & b & c & d & Hfour & Ha & Hb & Hc & _).
  assert (forall layout sd fixed cs tail,
             chunks layout = (("", sd) :: ("-", stdMonth) :: cs, tail) ->
             (forall f v, parseStd sd f v
                          = match getnum v fixed with
                            | Some (n, v') =>
                                Some (mkFields (f_year f) (f_month f) n (f_hour f) (f_min f)
                                        (f_sec f) (f_nsec f) (f_utc f) (f_zoneOffset f), v')
                            | None => None
                            end) ->
             Parse layout (dateText "/" t "") = None) as Hday.
  { intros layout sd fixed cs tail Hchunks Hstd.
    eapply Parse_second_fails; [exact Hchunks | |].
    - rewrite Hstd. unfold dateText. rewrite Hfour. strnorm. unfold getnum.
      rewrite Ha, Hb. reflexivity.
    - apply skip_other; [done |]. by apply (digit_neq c "-"). }
  rewrite (tryFormats_miss L5) by (by eapply (Hday L5 stdZeroDay true)).
  rewrite (tryFormats_miss L6).
  2:{ apply (Parse_first_fails L6 stdLongMonth); [done |].
      unfold dateText. rewrite Hfour. strnorm. cbn [parseStd].
      by rewrite lookup_longMonth_digit. }
  rewrite (tryFormats_miss L7) by (by eapply (Hday L7 stdDay false)).
  rewrite <- Format_L8 by done.
  apply tryFormats_hit, (Parse_Format_dateOnly L8 "/"); by try done.
Qed.

(** The round trip, layout by layout. *)
Lemma parseDate_Format layout t :
  layout ∈ formats -> representable layout t -> parseDate (Format t layout) = t.
Proof.
  rewrite formats_layouts. intros Hin.
  apply elem_of_cons in Hin as [-> | Hin]; [exact (parseDate_L1 t) |].
  apply elem_of_cons in Hin as [-> | Hin]; [exact (parseDate_L2 t) |].
  apply elem_of_cons in Hin as [-> | Hin]; [exact (parseDate_L3 t) |].
  apply elem_of_cons in Hin as [-> | Hin]; [exact (parseDate_L4 t) |].
  apply elem_of_cons in Hin as [-> | Hin]; [exact (parseDate_L5 t) |].
  apply elem_of_cons in Hin as [-> | Hin]; [exact (parseDate_L6 t) |].
  apply elem_of_cons in Hin as [-> | Hin]; [exact (parseDate_L7 t) |].
  apply elem_of_cons in Hin as [-> | Hin]; [exact (parseDate_L8 t) |].
  by apply elem_of_nil in Hin.
Qed.

Lemma tryFormats_first fs s :
  tryFormats fs s = default zeroTime (head (omap (fun layout => Parse layout s) fs)).
Proof.
  induction fs as [|f fs IH]; [done |]. cbn [tryFormats omap list_omap].
  by destruct (Parse f s).
Qed.

End DateRoundTrip.

(** C5: [parseDate] tries its layouts in the documented order and returns
    the first parse that succeeds, the zero time when none does.  For each
    of the layouts, formatting a timestamp that the layout can show in full
    and parsing the text gives the timestamp back.  In particular
    [2024-03-15T10:00:00Z] parses to 2024-03-15 10:00:00 UTC and
    [15-Mar-2024] to 2024-03-15 00:00:00 UTC. *)
Theorem C5_parseDate_round_trip :
  formats = ["2006-01-02T15:04:05Z07:00"; "2006-01-02T15:04:05Z"; "2006-01-02 15:04:05";
             "2006-01-02"; "02-Jan-2006"; "January 02 2006"; "2-Jan-2006"; "2006/01/02"]
  /\ (forall dateStr,
        parseDate dateStr
        = default GoTime.zeroTime
            (head (omap (fun layout => GoTime.Parse layout (GoStrings.TrimSpace dateStr))
                     formats)))
  /\ (forall layout t,
        layout ∈ formats ->
        DateRoundTrip.representable layout t ->
        parseDate (GoTime.Format t layout) = t)
  /\ parseDate "2024-03-15T10:00:00Z" = GoTime.mkTime 2024 3 15 10 0 0 0 0
  /\ parseDate "15-Mar-2024" = GoTime.mkTime 2024 3 15 0 0 0 0 0.
Proof.
  split_and!.
  - reflexivity.
  - intros dateStr. apply DateRoundTrip.tryFormats_first.
  - apply DateRoundTrip.parseDate_Format.
  - vm_compute. reflexivity.
  - vm_compute. reflexivity.
Qed.

Lemma C5_parseDate_round_trip_witness :
  parseDate (GoTime.Format (GoTime.mkTime 2024 3 15 10 0 0 0 19800) "2006-01-02T15:04:05Z07:00")
  = GoTime.mkTime 2024 3 15 10 0 0 0 19800
  /\ parseDate (GoTime.Format (GoTime.mkTime 2024 3 5 0 0 0 0 0) "2-Jan-2006")
     = GoTime.mkTime 2024 3 5 0 0 0 0 0.
Proof.
  split.
  - apply (proj1 (proj2 (proj2 C5_parseDate_round_trip))).
    + apply list_elem_of_here.
    + unfold DateRoundTrip.representable, DateRoundTrip.validDate, DateRoundTrip.validClock.
      cbn. repeat split; lia.
  - apply (proj1 (proj2 (proj2 C5_parseDate_round_trip))).
    + do 6 apply list_elem_of_further. apply list_elem_of_here.
    + unfold DateRoundTrip.representable, DateRoundTrip.validDate, DateRoundTrip.midnight.
      cbn. repeat split; lia.
Defined.
